(** * home-assistant-ipmitool: the polling-and-command client

    A shallow embedding of [custom_components/ipmitool/__init__.py] and
    [custom_components/ipmitool/device_action.py], followed by the
    properties of the poller, the command surface and the identity
    derivation.

    Python objects become records, dictionaries become [gmap]s, and the
    effects of the code (HTTP requests, log records, the mutable poller
    object, raised exceptions) are threaded through a small state and
    exception monad. *)

From Stdlib Require Import ZArith String Ascii List.
From stdpp Require Import base option gmap strings list.

#[local] Set Warnings "-register-all".
Local Open Scope string_scope.
Local Open Scope Z_scope.

(** ** Python values *)

(** The values that [requests.Response.json()] can return and that the
    code passes around without checking: [None], booleans, integers,
    strings, lists and string-keyed dictionaries. *)
Inductive PyVal : Type :=
| PNone
| PBool (b : bool)
| PInt (z : Z)
| PStr (s : string)
| PList (l : list PyVal)
| PDict (d : gmap string PyVal).

(** Truth value of an object, as tested by [if x:] and [not x]. *)
Definition truthy (v : PyVal) : bool :=
  match v with
  | PNone => false
  | PBool b => b
  | PInt z => negb (z =? 0)
  | PStr s => negb (String.eqb s "")
  | PList l => match l with [] => false | _ :: _ => true end
  | PDict d => negb (bool_decide (size d = 0%nat))
  end.

(** [alias: str | None] and the like. *)
Definition of_opt_str (o : option string) : PyVal :=
  match o with
  | Some s => PStr s
  | None => PNone
  end.

(** ** Exceptions *)

(** Every exception the modelled code can meet.  All of them derive from
    [Exception], so [except (Exception)] catches each one. *)
Inductive exn : Type :=
| KeyError (key : string)
| TypeError (what : string)
| AttributeError (attr : string)
| RequestException (cause : string)
| JSONDecodeError (cause : string)
| UpdateFailed (msg : string)
| ConfigEntryNotReady (msg : string)
| StopIteration
| RuntimeError (what : string)
| Invalid (what : string).

Inductive res (A : Type) : Type :=
| Ok (a : A)
| Raise (e : exn).
Arguments Ok {A} a.
Arguments Raise {A} e.

Definition is_ok {A} (r : res A) : bool :=
  match r with
  | Ok _ => true
  | Raise _ => false
  end.

(** ** State and exception monad

    A raised exception keeps the state reached so far: requests already
    sent stay sent, records already logged stay logged. *)
Definition M (S A : Type) : Type := S → res A * S.

Definition ret {S A} (a : A) : M S A := λ s, (Ok a, s).

Definition bind {S A B} (m : M S A) (k : A → M S B) : M S B :=
  λ s, match m s with
       | (Ok a, s') => k a s'
       | (Raise e, s') => (Raise e, s')
       end.

Definition raise {S A} (e : exn) : M S A := λ s, (Raise e, s).

Definition lift_res {S A} (r : res A) : M S A := λ s, (r, s).

Definition gets {S A} (f : S → A) : M S A := λ s, (Ok (f s), s).

Definition modify {S} (f : S → S) : M S unit := λ s, (Ok tt, f s).

(** [try: body  except (Exception) as err: handler err] *)
Definition try_except {S A} (body : M S A) (handler : exn → M S A) : M S A :=
  λ s, match body s with
       | (Ok a, s') => (Ok a, s')
       | (Raise e, s') => handler e s'
       end.

(** Run a computation on a component of a larger state. *)
Definition zoom {S T A} (get : S → T) (put : T → S → S) (m : M T A) : M S A :=
  λ s, let '(r, t') := m (get s) in (r, put t' s).

Declare Scope py_scope.
Delimit Scope py_scope with py.
Notation "x <- m ;; k" := (bind m (λ x, k))
  (at level 100, m at next level, right associativity) : py_scope.
Notation "m ;; k" := (bind m (λ _, k))
  (at level 100, right associativity) : py_scope.
Local Open Scope py_scope.

(** Subscription [v[key]] with a string key. *)
Definition getitem (v : PyVal) (key : string) : res PyVal :=
  match v with
  | PDict d =>
      match d !! key with
      | Some x => Ok x
      | None => Raise (KeyError key)
      end
  | PStr _ => Raise (TypeError "string indices must be integers")
  | PList _ => Raise (TypeError "list indices must be integers or slices")
  | PNone | PBool _ | PInt _ => Raise (TypeError "object is not subscriptable")
  end.

(** ** The snapshot: [IpmiDeviceInfo] *)

Record IpmiDeviceInfo : Type := {
  device : PyVal;
  power_on : PyVal;
  sensors : PyVal;
  states : PyVal;
  alias : option string
}.

(** [IpmiDeviceInfo()] with the dataclass defaults. *)
Definition IpmiDeviceInfo_new : IpmiDeviceInfo :=
  {| device := PNone; power_on := PBool false; sensors := PNone;
     states := PNone; alias := None |}.

Definition set_device (v : PyVal) (i : IpmiDeviceInfo) : IpmiDeviceInfo :=
  {| device := v; power_on := power_on i; sensors := sensors i;
     states := states i; alias := alias i |}.
Definition set_power_on (v : PyVal) (i : IpmiDeviceInfo) : IpmiDeviceInfo :=
  {| device := device i; power_on := v; sensors := sensors i;
     states := states i; alias := alias i |}.
Definition set_sensors (v : PyVal) (i : IpmiDeviceInfo) : IpmiDeviceInfo :=
  {| device := device i; power_on := power_on i; sensors := v;
     states := states i; alias := alias i |}.
Definition set_states (v : PyVal) (i : IpmiDeviceInfo) : IpmiDeviceInfo :=
  {| device := device i; power_on := power_on i; sensors := sensors i;
     states := v; alias := alias i |}.
Definition set_alias (a : option string) (i : IpmiDeviceInfo) : IpmiDeviceInfo :=
  {| device := device i; power_on := power_on i; sensors := sensors i;
     states := states i; alias := a |}.

(** ** The outside world: the bridge and the log *)

(** One [requests.get(url, params=params)]. *)
Record request : Type := {
  req_url : string;
  req_params : list (string * PyVal)
}.

(** What one HTTP call can come to: [requests.get] raises, or it returns
    a response whose [.json()] raises, or whose [.json()] is a value. *)
Inductive http_outcome : Type :=
| ConnectionFails (cause : string)
| MalformedBody (cause : string)
| JsonBody (j : PyVal).

Inductive log_level : Type := ERROR | DEBUG.

Inductive log_arg : Type :=
| LStr (s : string)
| LExn (e : exn)
| LInfo (i : option IpmiDeviceInfo).

Record log_record : Type := {
  log_lvl : log_level;
  log_msg : PyVal;
  log_args : list log_arg
}.

(** The bridge is an arbitrary function of the requests seen so far and
    of the current one; [sent] and [logged] grow at the end. *)
Record World : Type := {
  bridge : list request → request → http_outcome;
  sent : list request;
  logged : list log_record
}.

Definition world_send (r : request) (w : World) : World :=
  {| bridge := bridge w; sent := (sent w ++ [r])%list; logged := logged w |}.

Definition world_log (l : log_record) (w : World) : World :=
  {| bridge := bridge w; sent := sent w; logged := (logged w ++ [l])%list |}.

(** ** The poller object: [PyIpmiData] *)

Record PyIpmiData : Type := {
  _host : string;
  _port : Z;
  _alias : option string;
  _username : option string;
  _password : option string;
  _device_info : option IpmiDeviceInfo
}.

(** [PyIpmiData.__init__] *)
Definition PyIpmiData_init (host : string) (port : Z)
    (alias username password : option string) : PyIpmiData :=
  {| _host := host; _port := port; _alias := alias; _username := username;
     _password := password; _device_info := None |}.

Definition set_device_info (i : option IpmiDeviceInfo) (d : PyIpmiData)
    : PyIpmiData :=
  {| _host := _host d; _port := _port d; _alias := _alias d;
     _username := _username d; _password := _password d;
     _device_info := i |}.

(** The state a method of the poller runs in. *)
Record St : Type := {
  self : PyIpmiData;
  world : World
}.

Definition on_self (f : PyIpmiData → PyIpmiData) (s : St) : St :=
  {| self := f (self s); world := world s |}.
Definition on_world (f : World → World) (s : St) : St :=
  {| self := self s; world := f (world s) |}.

(** [_LOGGER.error(msg, *args)] and [_LOGGER.debug(msg, *args)] *)
Definition LOGGER_error (msg : PyVal) (args : list log_arg) : M St unit :=
  modify (on_world (world_log
    {| log_lvl := ERROR; log_msg := msg; log_args := args |})).

(** [requests.get]: the request goes out, then the bridge decides. *)
Definition requests_get (url : string) (params : list (string * PyVal))
    : M St http_outcome :=
  let r := {| req_url := url; req_params := params |} in
  seen <- gets (λ s, sent (world s)) ;;
  answer <- gets (λ s, bridge (world s) seen r) ;;
  modify (on_world (world_send r)) ;;
  match answer with
  | ConnectionFails cause => raise (RequestException cause)
  | _ => ret answer
  end.

(** [ipmi.json()] *)
Definition response_json (ipmi : http_outcome) : M St PyVal :=
  match ipmi with
  | JsonBody j => ret j
  | MalformedBody cause => raise (JSONDecodeError cause)
  | ConnectionFails cause => raise (RequestException cause)
  end.

Section Integration.

#[local] Set Default Proof Using "Type".

(** The constants that [__init__.py] imports from [const.py]; their
    values play no part below, so they are parameters. *)
Variable IPMI_URL : string.
Variable DOMAIN : string.
Variable PLATFORMS : list string.
Variable DEFAULT_SCAN_INTERVAL : Z.

(** [PyIpmiData.device_info] *)
Definition device_info (d : PyIpmiData) : option IpmiDeviceInfo :=
  _device_info d.

(** [PyIpmiData.name] *)
Definition name (d : PyIpmiData) : string :=
  match _alias d with
  | Some a => if String.eqb a "" then "IPMI-" +:+ _host d else a
  | None => "IPMI-" +:+ _host d
  end.

(** [PyIpmiData.getJson] *)
Definition getJson (path : option string) : M St PyVal :=
  d <- gets self ;;
  let params :=
    [ ("host", PStr (_host d));
      ("port", PInt (_port d));
      ("user", of_opt_str (_username d));
      ("password", of_opt_str (_password d)) ] in
  let url := IPMI_URL in
  let url :=
    match path with
    | Some p => url +:+ "/" +:+ p
    | None => url
    end in
  ipmi <- requests_get url params ;;
  response_json ipmi.

(** The handler shared by every method:
    [_LOGGER.error("Error connecting to IPMI server %s: %s", self._host, err)] *)
Definition log_connect_error (err : exn) : M St unit :=
  d <- gets self ;;
  LOGGER_error (PStr "Error connecting to IPMI server %s: %s")
               [LStr (_host d); LExn err].

(** [PyIpmiData.update] *)
Definition update : M St unit :=
  try_except
    (json <- getJson None ;;
     success <- lift_res (getitem json "success") ;;
     if truthy success then
       let info := IpmiDeviceInfo_new in
       v <- lift_res (getitem json "device") ;;
       let info := set_device v info in
       v <- lift_res (getitem json "power_on") ;;
       let info := set_power_on v info in
       v <- lift_res (getitem json "sensors") ;;
       let info := set_sensors v info in
       v <- lift_res (getitem json "states") ;;
       let info := set_states v info in
       d <- gets self ;;
       let info := set_alias (_alias d) info in
       modify (on_self (set_device_info (Some info)))
     else
       message <- lift_res (getitem json "message") ;;
       LOGGER_error message [])
    log_connect_error.

(** The five commands: [PyIpmiData.power_on] ... [PyIpmiData.soft_shutdown] *)
Definition cmd_power_on : M St unit :=
  try_except (getJson (Some "power_on") ;; ret tt) log_connect_error.

Definition cmd_power_off : M St unit :=
  try_except (getJson (Some "power_off") ;; ret tt) log_connect_error.

Definition cmd_power_cycle : M St unit :=
  try_except (getJson (Some "power_cycle") ;; ret tt) log_connect_error.

Definition cmd_power_reset : M St unit :=
  try_except (getJson (Some "power_reset") ;; ret tt) log_connect_error.

Definition cmd_soft_shutdown : M St unit :=
  try_except (getJson (Some "soft_shutdown") ;; ret tt) log_connect_error.

(** ** Identity derivation *)

(** [sep.join(items)]: every item has to be a string. *)
Fixpoint str_join (sep : string) (items : list PyVal) : res string :=
  match items with
  | [] => Ok ""
  | PStr s :: rest =>
      match rest with
      | [] => Ok s
      | _ :: _ =>
          match str_join sep rest with
          | Ok t => Ok (s +:+ sep +:+ t)
          | Raise e => Raise e
          end
      end
  | _ :: _ => Raise (TypeError "sequence item: expected str instance")
  end.

(** [_unique_id_from_status]; the result [None] is Python's [None]. *)
Definition _unique_id_from_status (device_info : IpmiDeviceInfo)
    : res (option string) :=
  let alias := of_opt_str (alias device_info) in
  if negb (truthy alias) then Ok None
  else
    match getitem (device device_info) "manufacturer_name" with
    | Raise e => Raise e
    | Ok manufacturer =>
        match getitem (device device_info) "product_name" with
        | Raise e => Raise e
        | Ok product_name =>
            let unique_id_group : list PyVal := [] in
            let unique_id_group :=
              if truthy manufacturer then (unique_id_group ++ [manufacturer])%list
              else if truthy product_name
              then (unique_id_group ++ [product_name])%list
              else unique_id_group in
            let unique_id_group :=
              if truthy alias then (unique_id_group ++ [alias])%list
              else unique_id_group in
            match str_join "_" unique_id_group with
            | Ok s => Ok (Some s)
            | Raise e => Raise e
            end
        end
    end.

(** [a + b] where both operands are [str | None]. *)
Definition str_add (a b : option string) : res (option string) :=
  match a, b with
  | Some x, Some y => Ok (Some (x +:+ y))
  | _, _ => Raise (TypeError "unsupported operand type(s) for +")
  end.

(** ** The polling hook handed to the scheduler *)

(** [async_update_data], the closure of [async_setup_entry] over [data].
    An [IpmiDeviceInfo] instance is always true, so [not data.device_info]
    holds exactly when the attribute is [None].  The ten second
    [async_timeout] is a matter of wall-clock time and is left out. *)
Definition async_update_data : M St IpmiDeviceInfo :=
  update ;;
  info <- gets (λ s, device_info (self s)) ;;
  match info with
  | None => raise (UpdateFailed "Error fetching IPMI state")
  | Some i => ret i
  end.

(** ** The host: config entries, coordinator, registry *)

(** [entry.data] and [entry.options]; an absent key is [None]. *)
Record EntryData : Type := {
  CONF_HOST : option string;
  CONF_PORT : option Z;
  CONF_ALIAS : option string;
  CONF_USERNAME : option string;
  CONF_PASSWORD : option string;
  data_CONF_RESOURCES : option PyVal
}.

Record EntryOptions : Type := {
  CONF_SCAN_INTERVAL : option Z;
  CONF_RESOURCES : option PyVal
}.

Record ConfigEntry : Type := {
  entry_id : string;
  data : EntryData;
  options : EntryOptions
}.

(** What the code reads and writes of a [DataUpdateCoordinator]. *)
Record Coordinator : Type := {
  coordinator_name : string;
  update_interval : Z;
  coordinator_data : option IpmiDeviceInfo
}.

(** The dictionary stored at [hass.data[DOMAIN][entry.entry_id]]. *)
Record EntryRuntime : Type := {
  COORDINATOR : Coordinator;
  PYIPMI_DATA : PyIpmiData;
  PYIPMI_UNIQUE_ID : string;
  USER_AVAILABLE_COMMANDS : gset string
}.

(** The host's device registry is used through two operations only:
    [async_get_or_create] and [async_get], the latter giving the config
    entries of a device in iteration order. *)
Variable Registry : Type.
Variable dr_async_get_or_create :
  string → string * string → string → PyVal → PyVal → PyVal →
  Registry → Registry.
Variable dr_async_get : Registry → string → option (list string).

(** Modelled from the spec: [INTEGRATION_SUPPORTED_COMMANDS] is defined in
    [const.py], which is not available; the specification names the five
    commands: power_on, power_off, power_cycle, power_reset,
    soft_shutdown. *)
Definition INTEGRATION_SUPPORTED_COMMANDS : gset string :=
  {[ "power_on"; "power_off"; "power_cycle"; "power_reset"; "soft_shutdown" ]}.

Record Hass : Type := {
  hass_world : World;
  hass_data : option (gmap string EntryRuntime);
  hass_registry : Registry;
  hass_entries : gmap string ConfigEntry;
  hass_listeners : list string;
  hass_forwarded : list (string * list string)
}.

Definition set_hass_world (w : World) (h : Hass) : Hass :=
  {| hass_world := w; hass_data := hass_data h;
     hass_registry := hass_registry h; hass_entries := hass_entries h;
     hass_listeners := hass_listeners h; hass_forwarded := hass_forwarded h |}.
Definition set_hass_data (d : option (gmap string EntryRuntime)) (h : Hass)
    : Hass :=
  {| hass_world := hass_world h; hass_data := d;
     hass_registry := hass_registry h; hass_entries := hass_entries h;
     hass_listeners := hass_listeners h; hass_forwarded := hass_forwarded h |}.
Definition set_hass_registry (r : Registry) (h : Hass) : Hass :=
  {| hass_world := hass_world h; hass_data := hass_data h;
     hass_registry := r; hass_entries := hass_entries h;
     hass_listeners := hass_listeners h; hass_forwarded := hass_forwarded h |}.
Definition set_hass_entries (e : gmap string ConfigEntry) (h : Hass) : Hass :=
  {| hass_world := hass_world h; hass_data := hass_data h;
     hass_registry := hass_registry h; hass_entries := e;
     hass_listeners := hass_listeners h; hass_forwarded := hass_forwarded h |}.
Definition set_hass_listeners (l : list string) (h : Hass) : Hass :=
  {| hass_world := hass_world h; hass_data := hass_data h;
     hass_registry := hass_registry h; hass_entries := hass_entries h;
     hass_listeners := l; hass_forwarded := hass_forwarded h |}.
Definition set_hass_forwarded (f : list (string * list string)) (h : Hass)
    : Hass :=
  {| hass_world := hass_world h; hass_data := hass_data h;
     hass_registry := hass_registry h; hass_entries := hass_entries h;
     hass_listeners := hass_listeners h; hass_forwarded := f |}.

(** Run a method of the poller [d] from the host; the poller comes back
    with whatever the method did to it. *)
Definition on_data {A} (d : PyIpmiData) (m : M St A) : M Hass (A * PyIpmiData) :=
  λ h, let '(r, s') := m {| self := d; world := hass_world h |} in
       (match r with
        | Ok a => Ok (a, self s')
        | Raise e => Raise e
        end, set_hass_world (world s') h).

(** [hass.config_entries.async_update_entry(entry, data=..., options=...)] *)
Definition async_update_entry (entry : ConfigEntry) (new_data : EntryData)
    (new_options : EntryOptions) : M Hass ConfigEntry :=
  let entry' :=
    {| entry_id := entry_id entry; data := new_data; options := new_options |} in
  modify (λ h, set_hass_entries (<[entry_id entry := entry']> (hass_entries h)) h) ;;
  ret entry'.

(** [coordinator.async_config_entry_first_refresh()]: the host calls the
    update method once; a failure of it ends the setup with
    [ConfigEntryNotReady], a result becomes [coordinator.data]. *)
Definition async_config_entry_first_refresh (c : Coordinator)
    (d : PyIpmiData) : M Hass (Coordinator * PyIpmiData) :=
  try_except
    (r <- on_data d async_update_data ;;
     let '(info, d') := r in
     ret ({| coordinator_name := coordinator_name c;
             update_interval := update_interval c;
             coordinator_data := Some info |}, d'))
    (λ _, raise (ConfigEntryNotReady "Error fetching IPMI resource status data")).

(** [_LOGGER.debug] from the host side. *)
Definition LOGGER_debug (msg : PyVal) (args : list log_arg) : M Hass unit :=
  modify (λ h, set_hass_world (world_log
    {| log_lvl := DEBUG; log_msg := msg; log_args := args |} (hass_world h)) h).

(** [str.title()] is Python's own, with its Unicode notion of letters
    and case; the setup only passes its result on, so it is a parameter. *)
Variable str_title : string → string.

(** [async_setup_entry] *)
Definition async_setup_entry (entry : ConfigEntry) : M Hass bool :=
  entry <-
    match CONF_RESOURCES (options entry) with
    | Some resources =>
        let new_data :=
          {| CONF_HOST := CONF_HOST (data entry);
             CONF_PORT := CONF_PORT (data entry);
             CONF_ALIAS := CONF_ALIAS (data entry);
             CONF_USERNAME := CONF_USERNAME (data entry);
             CONF_PASSWORD := CONF_PASSWORD (data entry);
             data_CONF_RESOURCES := Some resources |} in
        let new_options :=
          {| CONF_SCAN_INTERVAL := CONF_SCAN_INTERVAL (options entry);
             CONF_RESOURCES := None |} in
        async_update_entry entry new_data new_options
    | None => ret entry
    end ;;
  let config := data entry in
  host <- match CONF_HOST config with
          | Some h => ret h
          | None => raise (KeyError "host")
          end ;;
  port <- match CONF_PORT config with
          | Some p => ret p
          | None => raise (KeyError "port")
          end ;;
  let alias := CONF_ALIAS config in
  let username := CONF_USERNAME config in
  let password := CONF_PASSWORD config in
  let scan_interval :=
    default DEFAULT_SCAN_INTERVAL (CONF_SCAN_INTERVAL (options entry)) in
  let data := PyIpmiData_init host port alias username password in
  let coordinator :=
    {| coordinator_name := "IPMI resource status";
       update_interval := scan_interval;
       coordinator_data := None |} in
  r <- async_config_entry_first_refresh coordinator data ;;
  let '(coordinator, data) := r in
  let deviceInfo := coordinator_data coordinator in
  LOGGER_debug (PStr "IPMI Sensors Available: %s") [LInfo deviceInfo] ;;
  modify (λ h, set_hass_listeners (hass_listeners h ++ [entry_id entry])%list h) ;;
  derived <-
    match deviceInfo with
    | Some i => lift_res (_unique_id_from_status i)
    | None => raise (AttributeError "alias")
    end ;;
  unique_id <- lift_res (str_add alias derived) ;;
  let unique_id :=
    match unique_id with
    | None => entry_id entry
    | Some u => u
    end in
  modify (λ h, set_hass_data (Some (default ∅ (hass_data h))) h) ;;
  modify (λ h, set_hass_data
    ((λ m : gmap string EntryRuntime,
        <[entry_id entry :=
            {| COORDINATOR := coordinator;
               PYIPMI_DATA := data;
               PYIPMI_UNIQUE_ID := unique_id;
               USER_AVAILABLE_COMMANDS := INTEGRATION_SUPPORTED_COMMANDS |}]> m)
       <$> hass_data h) h) ;;
  stored <- match _device_info data with
            | Some i => ret (device i)
            | None => raise (AttributeError "device")
            end ;;
  manufacturer <- lift_res (getitem stored "manufacturer_name") ;;
  model <- lift_res (getitem stored "product_name") ;;
  sw_version <- lift_res (getitem stored "firmware_revision") ;;
  modify (λ h, set_hass_registry
    (dr_async_get_or_create (entry_id entry) (DOMAIN, unique_id)
       (str_title (name data)) manufacturer model sw_version
       (hass_registry h)) h) ;;
  modify (λ h, set_hass_forwarded
    (hass_forwarded h ++ [(entry_id entry, PLATFORMS)])%list h) ;;
  ret true.

(** ** Device actions: [device_action.py] *)

(** The action configuration; an absent key is [None]. *)
Record ActionConfig : Type := {
  CONF_TYPE : option string;
  CONF_DEVICE_ID : option string;
  CONF_DOMAIN : option string
}.

(** [cmd.replace(".", "_")] *)
Fixpoint replace_dot (s : string) : string :=
  match s with
  | EmptyString => EmptyString
  | String c rest =>
      String (if Ascii.eqb c "."%char then "_"%char else c) (replace_dot rest)
  end.

Definition ACTION_TYPES : gset string :=
  set_map replace_dot INTEGRATION_SUPPORTED_COMMANDS.

(** [cv.DEVICE_ACTION_BASE_SCHEMA]: device id and domain are required. *)
Definition DEVICE_ACTION_BASE_SCHEMA (config : ActionConfig) : res ActionConfig :=
  match CONF_DEVICE_ID config, CONF_DOMAIN config with
  | Some _, Some _ => Ok config
  | _, _ => Raise (Invalid "required key not provided")
  end.

(** [ACTION_SCHEMA]: the base schema extended with
    [vol.Required(CONF_TYPE): vol.In(ACTION_TYPES)]. *)
Definition ACTION_SCHEMA (config : ActionConfig) : res ActionConfig :=
  match CONF_TYPE config with
  | None => Raise (Invalid "required key not provided")
  | Some t =>
      if bool_decide (t ∈ ACTION_TYPES)
      then DEVICE_ACTION_BASE_SCHEMA config
      else Raise (Invalid "value must be one of the action types")
  end.

(** [_get_entry_id_from_device_id] *)
Definition _get_entry_id_from_device_id (device_id : string)
    : M Hass (option string) :=
  device <- gets (λ h, dr_async_get (hass_registry h) device_id) ;;
  match device with
  | None => ret None
  | Some config_entries =>
      match config_entries with
      | entry :: _ => ret (Some entry)
      | [] => raise StopIteration
      end
  end.

(** What [getattr(data, name)] finds on a [PyIpmiData] instance. *)
Inductive attribute : Type :=
| BoundMethod (call : M St unit)
| NeedsArguments
| NoEffect
| NotCallable.

(** The attributes of the class and of its instances, then the ones
    every object has: those that can be called without an argument and
    touch nothing, and those that cannot (the last two exist from
    Python 3.13 on). *)
Definition PyIpmiData_attributes : list (string * attribute) :=
  [ ("update", BoundMethod update);
    ("power_on", BoundMethod cmd_power_on);
    ("power_off", BoundMethod cmd_power_off);
    ("power_cycle", BoundMethod cmd_power_cycle);
    ("power_reset", BoundMethod cmd_power_reset);
    ("soft_shutdown", BoundMethod cmd_soft_shutdown);
    ("getJson", NeedsArguments);
    ("__init__", NeedsArguments);
    ("name", NotCallable);
    ("device_info", NotCallable);
    ("_host", NotCallable);
    ("_port", NotCallable);
    ("_alias", NotCallable);
    ("_username", NotCallable);
    ("_password", NotCallable);
    ("_device_info", NotCallable);
    ("__repr__", NoEffect);
    ("__str__", NoEffect);
    ("__hash__", NoEffect);
    ("__dir__", NoEffect);
    ("__sizeof__", NoEffect);
    ("__reduce__", NoEffect);
    ("__init_subclass__", NoEffect);
    ("__subclasshook__", NoEffect);
    ("__getstate__", NoEffect);
    ("__class__", NeedsArguments);
    ("__new__", NeedsArguments);
    ("__eq__", NeedsArguments);
    ("__ne__", NeedsArguments);
    ("__lt__", NeedsArguments);
    ("__le__", NeedsArguments);
    ("__gt__", NeedsArguments);
    ("__ge__", NeedsArguments);
    ("__getattribute__", NeedsArguments);
    ("__setattr__", NeedsArguments);
    ("__delattr__", NeedsArguments);
    ("__format__", NeedsArguments);
    ("__reduce_ex__", NeedsArguments);
    ("__doc__", NotCallable);
    ("__dict__", NotCallable);
    ("__module__", NotCallable);
    ("__weakref__", NotCallable);
    ("__static_attributes__", NotCallable);
    ("__firstlineno__", NotCallable) ].

Fixpoint find_attribute (table : list (string * attribute)) (name : string)
    : option attribute :=
  match table with
  | [] => None
  | (n, a) :: rest =>
      if String.eqb n name then Some a else find_attribute rest name
  end.

Definition getattr (name : string) : res attribute :=
  match find_attribute PyIpmiData_attributes name with
  | Some a => Ok a
  | None => Raise (AttributeError name)
  end.

(** [command()], as the executor job runs it. *)
Definition call (command : attribute) : M St unit :=
  match command with
  | BoundMethod m => m
  | NoEffect => ret tt
  | NeedsArguments => raise (TypeError "missing required positional argument")
  | NotCallable => raise (TypeError "object is not callable")
  end.

(** Run a method on the poller stored under [hass.data[DOMAIN][entry]];
    the stored object is the one that changes. *)
Definition on_stored {A} (entry : string) (rt : EntryRuntime) (m : M St A)
    : M Hass A :=
  λ h, let '(r, s') := m {| self := PYIPMI_DATA rt; world := hass_world h |} in
       let rt' :=
         {| COORDINATOR := COORDINATOR rt;
            PYIPMI_DATA := self s';
            PYIPMI_UNIQUE_ID := PYIPMI_UNIQUE_ID rt;
            USER_AVAILABLE_COMMANDS := USER_AVAILABLE_COMMANDS rt |} in
       (r, set_hass_data
             ((λ m : gmap string EntryRuntime, <[entry := rt']> m)
                <$> hass_data h)
             (set_hass_world (world s') h)).

(** [async_call_action_from_config].  A [StopIteration] that escapes
    into a coroutine surfaces as a [RuntimeError]. *)
Definition async_call_action_from_config (config : ActionConfig)
    : M Hass unit :=
  device_action_name <-
    match CONF_TYPE config with
    | Some t => ret t
    | None => raise (KeyError "type")
    end ;;
  device_id <-
    match CONF_DEVICE_ID config with
    | Some i => ret i
    | None => raise (KeyError "device_id")
    end ;;
  entry_id <-
    try_except (_get_entry_id_from_device_id device_id)
      (λ e, match e with
            | StopIteration => raise (RuntimeError "coroutine raised StopIteration")
            | _ => raise e
            end) ;;
  domain_data <- gets hass_data ;;
  found <-
    match domain_data, entry_id with
    | None, _ => raise (KeyError DOMAIN)
    | Some _, None => raise (KeyError "None")
    | Some m, Some e =>
        match m !! e with
        | Some rt => ret (e, rt)
        | None => raise (KeyError e)
        end
    end ;;
  let '(e, rt) := found in
  command <- lift_res (getattr device_action_name) ;;
  on_stored e rt (call command).

(** An action reaches [async_call_action_from_config] through the host,
    which validates it against the platform's [ACTION_SCHEMA] first. *)
Definition validated_action (config : ActionConfig) : M Hass unit :=
  config <- lift_res (ACTION_SCHEMA config) ;;
  async_call_action_from_config config.

(** [async_get_actions].  The commands are taken in the iteration order
    of the stored set. *)
Definition async_get_actions (device_id : string)
    : M Hass (list ActionConfig) :=
  entry_id <-
    try_except (_get_entry_id_from_device_id device_id)
      (λ e, match e with
            | StopIteration => raise (RuntimeError "coroutine raised StopIteration")
            | _ => raise e
            end) ;;
  match entry_id with
  | None => ret []
  | Some e =>
      let base_action :=
        {| CONF_TYPE := None; CONF_DEVICE_ID := Some device_id;
           CONF_DOMAIN := Some DOMAIN |} in
      domain_data <- gets hass_data ;;
      user_available_commands <-
        match domain_data with
        | None => raise (KeyError DOMAIN)
        | Some m =>
            match m !! e with
            | Some rt => ret (USER_AVAILABLE_COMMANDS rt)
            | None => raise (KeyError e)
            end
        end ;;
      ret ((λ command_name,
              {| CONF_TYPE := Some command_name;
                 CONF_DEVICE_ID := CONF_DEVICE_ID base_action;
                 CONF_DOMAIN := CONF_DOMAIN base_action |})
             <$> elements user_available_commands)
  end.

(** ** Unloading: [async_unload_entry] *)

(** [unload_ok] is what the host's [async_unload_platforms(entry,
    PLATFORMS)] answers; [hass.data[DOMAIN].pop(entry.entry_id)] raises
    when the key is not there. *)
Definition async_unload_entry (unload_ok : bool) (entry : ConfigEntry)
    : M Hass bool :=
  (if unload_ok then
     domain_data <- gets hass_data ;;
     match domain_data with
     | None => raise (KeyError DOMAIN)
     | Some m =>
         match m !! entry_id entry with
         | Some _ =>
             modify (set_hass_data (Some (delete (entry_id entry) m)))
         | None => raise (KeyError (entry_id entry))
         end
     end
   else ret tt) ;;
  ret unload_ok.

(** ** Vocabulary of the statements *)

(** The query parameters every call carries. *)
Definition connection_params (d : PyIpmiData) : list (string * PyVal) :=
  [ ("host", PStr (_host d));
    ("port", PInt (_port d));
    ("user", of_opt_str (_username d));
    ("password", of_opt_str (_password d)) ].

(** What the bridge answers to the next request [r] of state [s]. *)
Definition answer (s : St) (r : request) : http_outcome :=
  bridge (world s) (sent (world s)) r.

(** The request of a status poll and what the bridge answers to it. *)
Definition status_request (d : PyIpmiData) : request :=
  {| req_url := IPMI_URL; req_params := connection_params d |}.

Definition poll_answer (s : St) : http_outcome :=
  answer s (status_request (self s)).

(** The answer is a JSON body whose [success] entry is true. *)
Definition reports_success (o : http_outcome) : bool :=
  match o with
  | JsonBody j =>
      match getitem j "success" with
      | Ok v => truthy v
      | Raise _ => false
      end
  | _ => false
  end.

(** The four entries a snapshot is built from are all there. *)
Definition has_snapshot_keys (o : http_outcome) : bool :=
  match o with
  | JsonBody j =>
      is_ok (getitem j "device") && is_ok (getitem j "power_on") &&
      is_ok (getitem j "sensors") && is_ok (getitem j "states")
  | _ => false
  end.

(** The six operations of the poller object, for sequences of calls. *)
Inductive operation : Type :=
| Update | PowerOn | PowerOff | PowerCycle | PowerReset | SoftShutdown.

Definition method (op : operation) : M St unit :=
  match op with
  | Update => update
  | PowerOn => cmd_power_on
  | PowerOff => cmd_power_off
  | PowerCycle => cmd_power_cycle
  | PowerReset => cmd_power_reset
  | SoftShutdown => cmd_soft_shutdown
  end.

(** The sub-path an operation appends to the base URL, and its request. *)
Definition path_of (op : operation) : option string :=
  match op with
  | Update => None
  | PowerOn => Some "power_on"
  | PowerOff => Some "power_off"
  | PowerCycle => Some "power_cycle"
  | PowerReset => Some "power_reset"
  | SoftShutdown => Some "soft_shutdown"
  end.

Definition request_of (op : operation) (d : PyIpmiData) : request :=
  {| req_url := match path_of op with
                | Some p => IPMI_URL +:+ "/" +:+ p
                | None => IPMI_URL
                end;
     req_params := connection_params d |}.

(** The record the shared handler writes for the exception [err]. *)
Definition connect_error_record (d : PyIpmiData) (err : exn) : log_record :=
  {| log_lvl := ERROR;
     log_msg := PStr "Error connecting to IPMI server %s: %s";
     log_args := [LStr (_host d); LExn err] |}.

(** The poller's connection parameters. *)
Definition connection (d : PyIpmiData)
    : string * Z * option string * option string * option string :=
  (_host d, _port d, _alias d, _username d, _password d).

(** Calls one after the other; an exception would end the sequence. *)
Fixpoint call_all (ops : list operation) : M St unit :=
  match ops with
  | [] => ret tt
  | op :: rest => method op ;; call_all rest
  end.

(** The identity as the specification words it: manufacturer, or product
    when there is no manufacturer, then the separator, then the alias. *)
Definition identity_as_specified (manufacturer product alias : string)
    : string :=
  (if String.eqb manufacturer "" then product else manufacturer)
    +:+ "_" +:+ alias.

(** A name that is there: neither [None] nor the empty string. *)
Definition present (o : option string) : option string :=
  match o with
  | Some s => if String.eqb s "" then None else Some s
  | None => None
  end.

(** The record [update] writes for a rejection carrying [message]. *)
Definition rejection_record (message : PyVal) : log_record :=
  {| log_lvl := ERROR; log_msg := message; log_args := [] |}.

(** The state right after the request [r] has gone out. *)
Definition after_request (r : request) (s : St) : St :=
  on_world (world_send r) s.

(** The state after the shared handler has logged [err]. *)
Definition after_error (err : exn) (s : St) : St :=
  on_world (world_log (connect_error_record (self s) err)) s.

(** The action [async_get_actions] offers for the command [t]. *)
Definition offered_action (device_id t : string) : ActionConfig :=
  {| CONF_TYPE := Some t; CONF_DEVICE_ID := Some device_id;
     CONF_DOMAIN := Some DOMAIN |}.

(** The poller a setup builds from an entry's data. *)
Definition poller_of (host : string) (port : Z) (config : EntryData)
    : PyIpmiData :=
  PyIpmiData_init host port (CONF_ALIAS config) (CONF_USERNAME config)
    (CONF_PASSWORD config).

(** The entry as [async_update_entry] leaves it when the options carried
    [CONF_RESOURCES]. *)
Definition migrated (entry : ConfigEntry) : ConfigEntry :=
  match CONF_RESOURCES (options entry) with
  | Some resources =>
      {| entry_id := entry_id entry;
         data := {| CONF_HOST := CONF_HOST (data entry);
                    CONF_PORT := CONF_PORT (data entry);
                    CONF_ALIAS := CONF_ALIAS (data entry);
                    CONF_USERNAME := CONF_USERNAME (data entry);
                    CONF_PASSWORD := CONF_PASSWORD (data entry);
                    data_CONF_RESOURCES := Some resources |};
         options := {| CONF_SCAN_INTERVAL := CONF_SCAN_INTERVAL (options entry);
                       CONF_RESOURCES := None |} |}
  | None => entry
  end.

(** The host once the stale option of [entry] has been moved. *)
Definition with_migrated (entry : ConfigEntry) (h : Hass) : Hass :=
  match CONF_RESOURCES (options entry) with
  | Some _ =>
      set_hass_entries (<[entry_id entry := migrated entry]> (hass_entries h)) h
  | None => h
  end.

(** ** Sample data

    The scenario of the specification: a bridge for an Acme X1, polled
    under the alias [rack3]. *)

Definition sample_url : string := "http://127.0.0.1:9595".

Definition acme_device : PyVal :=
  PDict (list_to_map
    [ ("manufacturer_name", PStr "Acme");
      ("product_name", PStr "X1");
      ("firmware_revision", PStr "1.0") ]).

Definition acme_body : PyVal :=
  PDict (list_to_map
    [ ("success", PBool true);
      ("device", acme_device);
      ("power_on", PBool true);
      ("sensors", PDict ∅);
      ("states", PDict ∅) ]).

Definition rejected_body : PyVal :=
  PDict (list_to_map
    [ ("success", PBool false); ("message", PStr "auth failed") ]).

(** Success is reported but [states] is missing. *)
Definition incomplete_body : PyVal :=
  PDict (list_to_map
    [ ("success", PBool true);
      ("device", acme_device);
      ("power_on", PBool true);
      ("sensors", PDict ∅) ]).

Definition acme_snapshot (a : option string) : IpmiDeviceInfo :=
  {| device := acme_device; power_on := PBool true; sensors := PDict ∅;
     states := PDict ∅; alias := a |}.

(** An earlier snapshot of the same machine, powered off. *)
Definition earlier_snapshot : IpmiDeviceInfo :=
  {| device := acme_device; power_on := PBool false;
     sensors := PDict (list_to_map [("CPU Temp", PStr "41")]);
     states := PDict ∅; alias := Some "rack3" |}.

(** A device that reports neither manufacturer nor product. *)
Definition nameless_snapshot : IpmiDeviceInfo :=
  {| device := PDict (list_to_map
       [ ("manufacturer_name", PStr ""); ("product_name", PStr "");
         ("firmware_revision", PStr "1.0") ]);
     power_on := PBool true; sensors := PDict ∅; states := PDict ∅;
     alias := Some "rack3" |}.

(** A bridge that gives the same answer to every request. *)
Definition world_answering (o : http_outcome) : World :=
  {| bridge := λ _ _, o; sent := []; logged := [] |}.

Definition rack3 : PyIpmiData :=
  PyIpmiData_init "10.0.0.5" 623 (Some "rack3") (Some "admin") (Some "secret").

(** The poller [rack3] holding [earlier_snapshot], facing answer [o]. *)
Definition rack3_polled_before (o : http_outcome) : St :=
  {| self := set_device_info (Some earlier_snapshot) rack3;
     world := world_answering o |}.

(** The poller [rack3] before its first poll, facing answer [o]. *)
Definition rack3_never_polled (o : http_outcome) : St :=
  {| self := rack3; world := world_answering o |}.

(** A success body whose [device] has no [firmware_revision]. *)
Definition unversioned_body : PyVal :=
  PDict (list_to_map
    [ ("success", PBool true);
      ("device", PDict (list_to_map
         [ ("manufacturer_name", PStr "Acme"); ("product_name", PStr "X1") ]));
      ("power_on", PBool true);
      ("sensors", PDict ∅);
      ("states", PDict ∅) ]).

(** A rejection that carries no [message]. *)
Definition silent_rejection_body : PyVal :=
  PDict (list_to_map [ ("success", PBool false) ]).

(** A device that reports a product and no manufacturer entry. *)
Definition unbranded_snapshot : IpmiDeviceInfo :=
  {| device := PDict (list_to_map
       [ ("product_name", PStr "X1"); ("firmware_revision", PStr "1.0") ]);
     power_on := PBool true; sensors := PDict ∅; states := PDict ∅;
     alias := Some "rack3" |}.

(** A device whose manufacturer entry is a number. *)
Definition numbered_snapshot : IpmiDeviceInfo :=
  {| device := PDict (list_to_map
       [ ("manufacturer_name", PInt 343); ("product_name", PStr "X1");
         ("firmware_revision", PStr "1.0") ]);
     power_on := PBool true; sensors := PDict ∅; states := PDict ∅;
     alias := Some "rack3" |}.

(** What a setup of [rack3] has stored, and a host holding it. *)
Definition rack3_runtime : EntryRuntime :=
  {| COORDINATOR := {| coordinator_name := "IPMI resource status";
                       update_interval := 30;
                       coordinator_data := Some earlier_snapshot |};
     PYIPMI_DATA := set_device_info (Some earlier_snapshot) rack3;
     PYIPMI_UNIQUE_ID := "rack3Acme_rack3";
     USER_AVAILABLE_COMMANDS := INTEGRATION_SUPPORTED_COMMANDS |}.

Definition hass_with_rack3 (w : World) (r : Registry) : Hass :=
  {| hass_world := w;
     hass_data := Some {[ "0123456789abcdef" := rack3_runtime ]};
     hass_registry := r; hass_entries := ∅;
     hass_listeners := ["0123456789abcdef"];
     hass_forwarded := [] |}.

(** A config entry without host. *)
Definition entry_without_host : ConfigEntry :=
  {| entry_id := "fedcba9876543210";
     data := {| CONF_HOST := None; CONF_PORT := Some 623;
                CONF_ALIAS := Some "rack4"; CONF_USERNAME := None;
                CONF_PASSWORD := None; data_CONF_RESOURCES := None |};
     options := {| CONF_SCAN_INTERVAL := Some 60;
                   CONF_RESOURCES := Some (PList [PStr "ups.load"]) |} |}.

(** A config entry with host and port and no alias. *)
Definition entry_without_alias : ConfigEntry :=
  {| entry_id := "0123456789abcdef";
     data := {| CONF_HOST := Some "10.0.0.5"; CONF_PORT := Some 623;
                CONF_ALIAS := None; CONF_USERNAME := Some "admin";
                CONF_PASSWORD := Some "secret";
                data_CONF_RESOURCES := None |};
     options := {| CONF_SCAN_INTERVAL := None; CONF_RESOURCES := None |} |}.

Definition entry_with_alias : ConfigEntry :=
  {| entry_id := "0123456789abcdef";
     data := {| CONF_HOST := Some "10.0.0.5"; CONF_PORT := Some 623;
                CONF_ALIAS := Some "rack3"; CONF_USERNAME := Some "admin";
                CONF_PASSWORD := Some "secret";
                data_CONF_RESOURCES := None |};
     options := {| CONF_SCAN_INTERVAL := None; CONF_RESOURCES := None |} |}.

(** A device action of type [t] on the device [rack3-device]. *)
Definition action_of_type (t : string) : ActionConfig :=
  {| CONF_TYPE := Some t; CONF_DEVICE_ID := Some "rack3-device";
     CONF_DOMAIN := Some "ipmi" |}.

(** Title case for strings of ASCII characters, where it is what
    [str.title()] gives: the first letter of every run of letters in upper
    case, the others in lower case.  It stands for [str.title()] on the
    sample data. *)
Definition is_upper (c : ascii) : bool :=
  let n := nat_of_ascii c in (65 <=? n)%nat && (n <=? 90)%nat.
Definition is_lower (c : ascii) : bool :=
  let n := nat_of_ascii c in (97 <=? n)%nat && (n <=? 122)%nat.
Definition to_upper (c : ascii) : ascii :=
  if is_lower c then ascii_of_nat (nat_of_ascii c - 32) else c.
Definition to_lower (c : ascii) : ascii :=
  if is_upper c then ascii_of_nat (nat_of_ascii c + 32) else c.

Fixpoint ascii_title_from (inside_word : bool) (s : string) : string :=
  match s with
  | EmptyString => EmptyString
  | String c rest =>
      if is_upper c || is_lower c
      then String (if inside_word then to_lower c else to_upper c)
                  (ascii_title_from true rest)
      else String c (ascii_title_from false rest)
  end.

Definition ascii_title (s : string) : string := ascii_title_from false s.

(** A registry kept as a list of devices with their config entries. *)
Definition list_registry : Type := list (string * list string).

Definition list_registry_create (entry : string) (identifier : string * string)
    (_ : string) (_ _ _ : PyVal) (r : list_registry) : list_registry :=
  (r ++ [(identifier.2, [entry])])%list.

Definition list_registry_get (r : list_registry)
    (device_id : string) : option (list string) :=
  snd <$> List.find (λ d, String.eqb d.1 device_id) r.

(** A host that has set nothing up yet. *)
Definition fresh_hass (w : World) (r : Registry) : Hass :=
  {| hass_world := w; hass_data := None; hass_registry := r;
     hass_entries := ∅; hass_listeners := []; hass_forwarded := [] |}.

(** ** Properties *)

Ltac run_monad :=
  unfold cmd_power_on, cmd_power_off, cmd_power_cycle, cmd_power_reset,
    cmd_soft_shutdown, log_connect_error, LOGGER_error, getJson,
    requests_get, response_json, try_except, bind, gets, modify, ret,
    raise, lift_res; cbn.

(** One call of [getJson]: the request is appended to [sent] whatever the
    bridge answers. *)
Lemma getJson_sent (path : option string) (s : St) :
  sent (world (getJson path s).2) =
  (sent (world s) ++
   [{| req_url := match path with
                  | Some p => IPMI_URL +:+ "/" +:+ p
                  | None => IPMI_URL
                  end;
       req_params := connection_params (self s) |}])%list.
Proof.
  run_monad. unfold connection_params.
  destruct path; cbn; destruct (bridge _ _ _); reflexivity.
Qed.

(** [getJson] does not touch the poller object. *)
Lemma getJson_self (path : option string) (s : St) :
  self (getJson path s).2 = self s.
Proof.
  run_monad. destruct (bridge _ _ _); reflexivity.
Qed.

(** A command is [getJson] with its exceptions logged. *)
Lemma command_run (p : string) (s : St) :
  try_except (getJson (Some p) ;; ret tt) log_connect_error s =
  match (getJson (Some p) s).1 with
  | Ok _ => (Ok tt, (getJson (Some p) s).2)
  | Raise e =>
      (Ok tt,
       on_world (world_log
         {| log_lvl := ERROR;
            log_msg := PStr "Error connecting to IPMI server %s: %s";
            log_args := [LStr (_host (self s)); LExn e] |})
         (getJson (Some p) s).2)
  end.
Proof.
  run_monad. destruct (bridge _ _ _); reflexivity.
Qed.

Lemma command_sent (p : string) (s : St) :
  sent (world (try_except (getJson (Some p) ;; ret tt) log_connect_error s).2) =
  sent (world (getJson (Some p) s).2).
Proof.
  rewrite command_run. destruct (getJson (Some p) s).1; reflexivity.
Qed.

(** A status poll sends its one request whatever comes back. *)
Lemma update_sent (s : St) :
  sent (world (update s).2) = (sent (world s) ++ [status_request (self s)])%list.
Proof.
  unfold update, status_request. run_monad. unfold connection_params.
  destruct (bridge _ _ _) as [c|c|j]; cbn; try reflexivity.
  destruct (getitem j "success") as [v|e]; cbn; [|reflexivity].
  destruct (truthy v); cbn.
  - destruct (getitem j "device"); cbn; [|reflexivity].
    destruct (getitem j "power_on"); cbn; [|reflexivity].
    destruct (getitem j "sensors"); cbn; [|reflexivity].
    destruct (getitem j "states"); cbn; reflexivity.
  - destruct (getitem j "message"); reflexivity.
Qed.

(** C8. Each of the five commands sends exactly one GET, to the base URL
    followed by a slash and the command's own name, with the host, port,
    user and password parameters of the poller; the status poll sends
    exactly one GET to the bare base URL with the same parameters. *)
Theorem commands_send_one_request (s : St) :
  let to url :=
    (sent (world s) ++
     [{| req_url := url; req_params := connection_params (self s) |}])%list in
  sent (world (cmd_power_on s).2) = to (IPMI_URL +:+ "/" +:+ "power_on") ∧
  sent (world (cmd_power_off s).2) = to (IPMI_URL +:+ "/" +:+ "power_off") ∧
  sent (world (cmd_power_cycle s).2) = to (IPMI_URL +:+ "/" +:+ "power_cycle") ∧
  sent (world (cmd_power_reset s).2) = to (IPMI_URL +:+ "/" +:+ "power_reset") ∧
  sent (world (cmd_soft_shutdown s).2)
    = to (IPMI_URL +:+ "/" +:+ "soft_shutdown") ∧
  sent (world (update s).2) = to IPMI_URL.
Proof.
  cbv zeta.
  repeat split;
    try (unfold cmd_power_on, cmd_power_off, cmd_power_cycle,
           cmd_power_reset, cmd_soft_shutdown;
         rewrite command_sent; apply getJson_sent).
  apply update_sent.
Qed.

(** What [update] leaves in [_device_info], by the bridge's answer. *)
Lemma update_device_info (s : St) :
  device_info (self (update s).2) =
  match poll_answer s with
  | JsonBody j =>
      match getitem j "success" with
      | Ok v =>
          if truthy v then
            match getitem j "device", getitem j "power_on",
                  getitem j "sensors", getitem j "states" with
            | Ok d, Ok p, Ok se, Ok st =>
                Some {| device := d; power_on := p; sensors := se;
                        states := st; alias := _alias (self s) |}
            | _, _, _, _ => device_info (self s)
            end
          else device_info (self s)
      | Raise _ => device_info (self s)
      end
  | _ => device_info (self s)
  end.
Proof.
  unfold poll_answer, answer, status_request, connection_params, update.
  run_monad.
  destruct (bridge _ _ _) as [c|c|j]; cbn; try reflexivity.
  destruct (getitem j "success") as [v|e]; cbn; [|reflexivity].
  destruct (truthy v); cbn.
  - destruct (getitem j "device"); cbn; [|reflexivity].
    destruct (getitem j "power_on"); cbn; [|reflexivity].
    destruct (getitem j "sensors"); cbn; [|reflexivity].
    destruct (getitem j "states"); cbn; reflexivity.
  - destruct (getitem j "message"); reflexivity.
Qed.

Lemma command_returns (p : string) (s : St) :
  let r := try_except (getJson (Some p) ;; ret tt) log_connect_error s in
  r.1 = Ok tt ∧ connection (self r.2) = connection (self s).
Proof.
  cbv zeta. rewrite command_run.
  pose proof (getJson_self (Some p) s) as Hself.
  destruct (getJson (Some p) s).1; (split; [reflexivity|]);
    cbn [snd on_world self]; rewrite Hself; reflexivity.
Qed.

(** Every operation returns normally and leaves the connection
    parameters alone. *)
Lemma method_returns (op : operation) (s : St) :
  (method op s).1 = Ok tt ∧ connection (self (method op s).2) = connection (self s).
Proof.
  destruct op; cbn [method]; try apply command_returns.
  unfold update. run_monad.
  destruct (bridge _ _ _) as [c|c|j]; cbn; try (split; reflexivity).
  destruct (getitem j "success") as [v|e]; cbn; [|split; reflexivity].
  destruct (truthy v); cbn.
  - destruct (getitem j "device"); cbn; [|split; reflexivity].
    destruct (getitem j "power_on"); cbn; [|split; reflexivity].
    destruct (getitem j "sensors"); cbn; [|split; reflexivity].
    destruct (getitem j "states"); cbn; split; reflexivity.
  - destruct (getitem j "message"); split; reflexivity.
Qed.

(** An exception of the HTTP call ends up as one error record. *)
Lemma method_logs_transport_error (op : operation) (s : St) :
  match answer s (request_of op (self s)) with
  | ConnectionFails c =>
      logged (world (method op s).2) =
      (logged (world s) ++
       [connect_error_record (self s) (RequestException c)])%list
  | MalformedBody c =>
      logged (world (method op s).2) =
      (logged (world s) ++
       [connect_error_record (self s) (JSONDecodeError c)])%list
  | JsonBody _ => True
  end.
Proof.
  unfold answer, request_of, connection_params, connect_error_record.
  destruct op; cbn [method path_of]; unfold update; run_monad;
    destruct (bridge _ _ _); cbn; auto.
Qed.

(** Without a true [success] entry, [update] stores nothing. *)
Lemma update_device_info_failed (s : St) :
  reports_success (poll_answer s) = false →
  device_info (self (update s).2) = device_info (self s).
Proof.
  intros Hfail. rewrite update_device_info.
  unfold reports_success in Hfail.
  destruct (poll_answer s) as [c|c|j]; try reflexivity.
  destruct (getitem j "success") as [v|e]; [|reflexivity].
  rewrite Hfail. reflexivity.
Qed.

(** C4. A poll that fails leaves the snapshot as it was: when the bridge
    does not answer, answers with a body that is not JSON, or answers
    without a true [success] entry, [device_info] after [update] is
    [device_info] before it. *)
Theorem failed_poll_keeps_snapshot (s : St) :
  reports_success (poll_answer s) = false →
  device_info (self (update s).2) = device_info (self s).
Proof.
  intros Hfail. rewrite update_device_info.
  destruct (poll_answer s) as [cause|cause|j]; try reflexivity.
  cbn [reports_success] in Hfail.
  destruct (getitem j "success") as [v|e]; [|reflexivity].
  rewrite Hfail. reflexivity.
Qed.

(** C5. After a poll that succeeds, the snapshot is exactly the one built
    from the answer's [device], [power_on], [sensors] and [states] entries
    and the configured alias; nothing of the previous snapshot is kept. *)
Theorem successful_poll_replaces_snapshot (s : St) (j d p se st : PyVal) :
  poll_answer s = JsonBody j →
  reports_success (JsonBody j) = true →
  getitem j "device" = Ok d →
  getitem j "power_on" = Ok p →
  getitem j "sensors" = Ok se →
  getitem j "states" = Ok st →
  device_info (self (update s).2) =
  Some {| device := d; power_on := p; sensors := se; states := st;
          alias := _alias (self s) |}.
Proof.
  intros Ha Hs Hd Hp Hse Hst. rewrite update_device_info, Ha.
  unfold reports_success in Hs.
  destruct (getitem j "success") as [v|e]; [|discriminate].
  rewrite Hs, Hd, Hp, Hse, Hst. reflexivity.
Qed.

(** C10. The snapshot is assigned in one step: when the answer reports
    success but lacks one of [device], [power_on], [sensors], [states],
    the previous snapshot stays; and whatever the answer, the snapshot
    after [update] is the previous one or one built from all four
    entries, never one that is half filled. *)
Theorem incomplete_answer_keeps_snapshot (s : St) :
  (reports_success (poll_answer s) = true →
   has_snapshot_keys (poll_answer s) = false →
   device_info (self (update s).2) = device_info (self s)) ∧
  (device_info (self (update s).2) = device_info (self s) ∨
   ∃ j d p se st,
     poll_answer s = JsonBody j ∧
     getitem j "device" = Ok d ∧ getitem j "power_on" = Ok p ∧
     getitem j "sensors" = Ok se ∧ getitem j "states" = Ok st ∧
     device_info (self (update s).2) =
     Some {| device := d; power_on := p; sensors := se; states := st;
             alias := _alias (self s) |}).
Proof.
  rewrite update_device_info.
  unfold reports_success, has_snapshot_keys.
  destruct (poll_answer s) as [c|c|j]; try (split; [reflexivity|left; reflexivity]).
  destruct (getitem j "success") as [v|e]; [|split; [reflexivity|left; reflexivity]].
  destruct (truthy v); [|split; [reflexivity|left; reflexivity]].
  destruct (getitem j "device") as [d|] eqn:Hd;
    [|split; [reflexivity|left; reflexivity]].
  destruct (getitem j "power_on") as [p|] eqn:Hp;
    [|split; [reflexivity|left; reflexivity]].
  destruct (getitem j "sensors") as [se|] eqn:Hse;
    [|split; [reflexivity|left; reflexivity]].
  destruct (getitem j "states") as [st|] eqn:Hst;
    [|split; [reflexivity|left; reflexivity]].
  split; [discriminate|].
  right. exists j, d, p, se, st. repeat split; auto.
Qed.

(** The hook's result is read off the snapshot that [update] leaves. *)
Lemma async_update_data_result (s : St) :
  (async_update_data s).1 =
  match device_info (self (update s).2) with
  | Some i => Ok i
  | None => Raise (UpdateFailed "Error fetching IPMI state")
  end.
Proof.
  pose proof (method_returns Update s) as [Hret _]. cbn [method] in Hret.
  unfold async_update_data, bind, gets.
  destruct (update s) as [r s1]. cbn in Hret |- *. subst r.
  destruct (device_info (self s1)); reflexivity.
Qed.

(** X9. When no snapshot is stored, a failed poll does reach the scheduler:
    the hook raises [UpdateFailed]. *)
Lemma first_failure_is_reported (s : St) :
  device_info (self s) = None →
  reports_success (poll_answer s) = false →
  (async_update_data s).1 = Raise (UpdateFailed "Error fetching IPMI state").
Proof.
  intros Hnone Hfail.
  rewrite async_update_data_result, update_device_info_failed, Hnone by done.
  reflexivity.
Qed.

(** C1. The hook handed to the scheduler tells a failure from a success
    by the stored snapshot alone: when a snapshot is stored and the poll
    fails, the hook returns that stored snapshot as its result and
    raises nothing, so the scheduler sees a successful poll. *)
Theorem failed_poll_returns_stale_snapshot (s : St) (i : IpmiDeviceInfo) :
  device_info (self s) = Some i →
  reports_success (poll_answer s) = false →
  (async_update_data s).1 = Ok i.
Proof.
  intros Hsome Hfail.
  rewrite async_update_data_result, update_device_info_failed, Hsome by done.
  reflexivity.
Qed.

(** The derivation reads the alias and the two names and nothing else. *)
Lemma unique_id_from_parts (i : IpmiDeviceInfo) :
  _unique_id_from_status i =
  if negb (truthy (of_opt_str (alias i))) then Ok None
  else
    match getitem (device i) "manufacturer_name" with
    | Raise e => Raise e
    | Ok manufacturer =>
        match getitem (device i) "product_name" with
        | Raise e => Raise e
        | Ok product_name =>
            match str_join "_"
                    ((if truthy manufacturer then [manufacturer]
                      else if truthy product_name then [product_name]
                      else []) ++ [of_opt_str (alias i)]) with
            | Ok s => Ok (Some s)
            | Raise e => Raise e
            end
        end
    end.
Proof.
  unfold _unique_id_from_status.
  destruct (truthy (of_opt_str (alias i))) eqn:Ha; cbn [negb]; [|reflexivity].
  destruct (getitem (device i) "manufacturer_name") as [m|]; [|reflexivity].
  destruct (getitem (device i) "product_name") as [p|]; [|reflexivity].
  destruct (truthy m); [reflexivity|]. destruct (truthy p); reflexivity.
Qed.

(** C7. The derived identity is a function of the alias and of the
    manufacturer and product entries only: two snapshots that agree on
    these three give the same result, whatever their other fields; and a
    snapshot without alias gives [None], whatever its other fields. *)
Theorem unique_id_deterministic :
  (∀ i1 i2 : IpmiDeviceInfo,
     alias i1 = alias i2 →
     getitem (device i1) "manufacturer_name"
       = getitem (device i2) "manufacturer_name" →
     getitem (device i1) "product_name" = getitem (device i2) "product_name" →
     _unique_id_from_status i1 = _unique_id_from_status i2) ∧
  (∀ i : IpmiDeviceInfo, alias i = None → _unique_id_from_status i = Ok None).
Proof.
  split.
  - intros i1 i2 Ha Hm Hp. rewrite !unique_id_from_parts, Ha, Hm, Hp.
    reflexivity.
  - intros i Ha. unfold _unique_id_from_status. rewrite Ha. reflexivity.
Qed.

(** An empty alias counts as no alias. *)
Lemma unique_id_empty_alias (i : IpmiDeviceInfo) :
  alias i = Some "" → _unique_id_from_status i = Ok None.
Proof.
  intros Ha. unfold _unique_id_from_status. rewrite Ha. reflexivity.
Qed.

Lemma truthy_of_opt_str (o : option string) :
  truthy (of_opt_str o) = match present o with Some _ => true | None => false end.
Proof.
  destruct o as [x|]; cbn; [|reflexivity]. destruct (String.eqb x ""); reflexivity.
Qed.

Lemma present_Some (o : option string) (x : string) :
  present o = Some x → o = Some x.
Proof.
  destruct o as [y|]; cbn; [|discriminate].
  destruct (String.eqb y ""); [discriminate|]. congruence.
Qed.

(** C6, as the code has it. For a snapshot with an alias whose [device]
    is an object: when it holds both names, each a string or null, the
    identity is the manufacturer name, or the product name when the
    manufacturer name is null or empty, followed by ["_"] and the alias,
    and when both names are null or empty it is the alias alone, without
    separator; when it lacks one of the two entries the derivation
    raises [KeyError] for that entry and falls back on nothing. *)
Theorem unique_id_with_alias (i : IpmiDeviceInfo) (a : string)
    (d : gmap string PyVal) :
  alias i = Some a →
  a ≠ "" →
  device i = PDict d →
  match d !! "manufacturer_name", d !! "product_name" with
  | Some manufacturer, Some product =>
      ∀ m p : option string,
        manufacturer = of_opt_str m →
        product = of_opt_str p →
        _unique_id_from_status i =
        Ok (Some match present m, present p with
                 | Some x, _ => x +:+ "_" +:+ a
                 | None, Some y => y +:+ "_" +:+ a
                 | None, None => a
                 end)
  | None, _ => _unique_id_from_status i = Raise (KeyError "manufacturer_name")
  | Some _, None => _unique_id_from_status i = Raise (KeyError "product_name")
  end.
Proof.
  intros Ha Hne Hd.
  rewrite unique_id_from_parts, Ha, Hd, truthy_of_opt_str.
  assert (present (Some a) = Some a) as ->.
  { cbn. destruct (String.eqb_spec a ""); [contradiction|reflexivity]. }
  cbn [negb getitem].
  destruct (d !! "manufacturer_name") as [manufacturer|]; [|reflexivity].
  destruct (d !! "product_name") as [product|]; [|reflexivity].
  intros m p -> ->. rewrite !truthy_of_opt_str.
  destruct (present m) as [x|] eqn:Hx.
  - apply present_Some in Hx. subst m. reflexivity.
  - destruct (present p) as [y|] eqn:Hy; [|reflexivity].
    apply present_Some in Hy. subst p. reflexivity.
Qed.

(** The action types are the five command names. *)
Lemma ACTION_TYPES_elem (t : string) :
  t ∈ ACTION_TYPES ↔
  t ∈ ["power_on"; "power_off"; "power_cycle"; "power_reset"; "soft_shutdown"].
Proof.
  clear. unfold ACTION_TYPES, INTEGRATION_SUPPORTED_COMMANDS.
  rewrite elem_of_map. split.
  - intros [x [-> Hx]]. set_unfold.
    destruct Hx as [[[[Hx|Hx]|Hx]|Hx]|Hx]; subst x; cbn; tauto.
  - intros Ht.
    repeat (apply elem_of_cons in Ht; destruct Ht as [->|Ht]);
      [..|by apply elem_of_nil in Ht];
      match goal with |- ∃ x, ?t = _ ∧ _ => exists t end;
      (split; [reflexivity|set_solver]).
Qed.

(** Without the schema in front of it, [async_call_action_from_config]
    resolves any attribute of the poller: the type [update] runs a status
    poll. *)
Lemma unvalidated_update_polls (config : ActionConfig) (h : Hass)
    (device_id e : string) (others : list string)
    (m : gmap string EntryRuntime) (rt : EntryRuntime) :
  CONF_TYPE config = Some "update" →
  CONF_DEVICE_ID config = Some device_id →
  dr_async_get (hass_registry h) device_id = Some (e :: others) →
  hass_data h = Some m →
  m !! e = Some rt →
  (async_call_action_from_config config h).1 = Ok tt ∧
  sent (hass_world (async_call_action_from_config config h).2) =
  (sent (hass_world h) ++ [status_request (PYIPMI_DATA rt)])%list.
Proof.
  intros Ht Hd Hreg Hdata Hm.
  unfold async_call_action_from_config, _get_entry_id_from_device_id,
    try_except, bind, gets, ret, raise, lift_res.
  rewrite Ht, Hd, Hreg, Hdata, Hm. cbn.
  unfold on_stored.
  pose proof (method_returns Update
                {| self := PYIPMI_DATA rt; world := hass_world h |}) as [Hr _].
  pose proof (update_sent
                {| self := PYIPMI_DATA rt; world := hass_world h |}) as Hs.
  cbn [method] in Hr.
  destruct (update _) as [r s1]. cbn in Hr, Hs |- *. subst r.
  split; [reflexivity|]. exact Hs.
Qed.

(** What [getattr] finds under a name: one of the six methods, and then
    the name is that method's own, or something that sends nothing. *)
Lemma getattr_named (t : string) (a : attribute) :
  getattr t = Ok a →
  (∃ op, (op = Update ∧ t = "update" ∨ path_of op = Some t) ∧
         a = BoundMethod (method op)) ∨
  a = NeedsArguments ∨ a = NoEffect ∨ a = NotCallable.
Proof.
  unfold getattr, PyIpmiData_attributes. cbn [find_attribute].
  repeat (match goal with
          | |- context [String.eqb ?x t] =>
              destruct (String.eqb_spec x t) as [<-|_]
          end;
          [intros [= <-];
           first [ left; exists Update; split;
                   [left; split; reflexivity|reflexivity]
                 | left; (exists PowerOn + exists PowerOff +
                          exists PowerCycle + exists PowerReset +
                          exists SoftShutdown);
                   split; [right; reflexivity|reflexivity]
                 | right; left; reflexivity
                 | right; right; left; reflexivity
                 | right; right; right; reflexivity ] |]).
  discriminate.
Qed.

(** C2, as the code has it. For an action whose type is not one of
    [power_on], [power_off], [power_cycle], [power_reset],
    [soft_shutdown]: [ACTION_SCHEMA] rejects it with [Invalid], and that
    is the only check of the name there is.
    [async_call_action_from_config] looks the name up on the poller
    with [getattr] and checks nothing: it sends no request as long as
    the name is not [update]; when the name is no attribute of the
    poller it fails and leaves the host as it was, with
    [AttributeError] once the device and the data of its entry are
    found; and for the name [update], once these are found, it raises
    nothing and runs a status poll. *)
Theorem unknown_action_sends_nothing (config : ActionConfig) (h : Hass)
    (t : string) :
  CONF_TYPE config = Some t →
  t ∉ ["power_on"; "power_off"; "power_cycle"; "power_reset";
       "soft_shutdown"] →
  (∃ what, ACTION_SCHEMA config = Raise (Invalid what)) ∧
  (t ≠ "update" →
   sent (hass_world (async_call_action_from_config config h).2)
     = sent (hass_world h)) ∧
  (getattr t = Raise (AttributeError t) →
   ∃ e,
     async_call_action_from_config config h = (Raise e, h) ∧
     ∀ device_id entry others m rt,
       CONF_DEVICE_ID config = Some device_id →
       dr_async_get (hass_registry h) device_id = Some (entry :: others) →
       hass_data h = Some m →
       m !! entry = Some rt →
       e = AttributeError t) ∧
  (t = "update" →
   ∀ device_id entry others m rt,
     CONF_DEVICE_ID config = Some device_id →
     dr_async_get (hass_registry h) device_id = Some (entry :: others) →
     hass_data h = Some m →
     m !! entry = Some rt →
     (async_call_action_from_config config h).1 = Ok tt ∧
     sent (hass_world (async_call_action_from_config config h).2)
       = (sent (hass_world h) ++ [status_request (PYIPMI_DATA rt)])%list).
Proof.
  intros Ht Hout. split; [|split; [|split]]; cycle 3.
  { intros -> device_id entry others m rt Hd Hreg Hdata Hm.
    exact (unvalidated_update_polls config h device_id entry others m rt
             Ht Hd Hreg Hdata Hm). }
  - unfold ACTION_SCHEMA. rewrite Ht, bool_decide_eq_false_2.
    + eexists. reflexivity.
    + rewrite ACTION_TYPES_elem. exact Hout.
  - intros Hnu. unfold async_call_action_from_config, _get_entry_id_from_device_id,
      try_except, bind, gets, ret, raise, lift_res. rewrite Ht. cbn.
    destruct (CONF_DEVICE_ID config) as [dev|]; cbn; [|reflexivity].
    destruct (dr_async_get (hass_registry h) dev) as [[|e others]|]; cbn;
      try (destruct (hass_data h); reflexivity).
    destruct (hass_data h) as [m|]; cbn; [|reflexivity].
    destruct (m !! e) as [rt|]; cbn; [|reflexivity].
    destruct (getattr t) as [a|err] eqn:Hattr; cbn; [|reflexivity].
    unfold on_stored. apply getattr_named in Hattr.
    destruct Hattr as [(op & Hname & Ha)|[Ha|[Ha|Ha]]]; subst a; cbn [call];
      try reflexivity.
    exfalso. destruct Hname as [[_ Hu]|Hp]; [exact (Hnu Hu)|].
    apply Hout. destruct op; inversion Hp; subst t; repeat constructor.
  - intros Hattr. unfold async_call_action_from_config, _get_entry_id_from_device_id,
      try_except, bind, gets, ret, raise, lift_res. rewrite Ht. cbn.
    destruct (CONF_DEVICE_ID config) as [dev|]; cbn;
      [|eexists; split; [reflexivity|discriminate]].
    destruct (dr_async_get (hass_registry h) dev) as [[|e others]|] eqn:Hreg;
      cbn.
    + eexists. split; [reflexivity|]. intros ? ? ? ? ? [= <-]. congruence.
    + destruct (hass_data h) as [m|] eqn:Hdata; cbn;
        [|eexists; split; [reflexivity|]; intros ? ? ? ? ? _ _; discriminate].
      destruct (m !! e) as [rt|] eqn:Hm; cbn.
      * rewrite Hattr. cbn. eexists. split; reflexivity.
      * eexists. split; [reflexivity|].
        intros ? ? ? ? ? [= <-] Hr [= <-]. rewrite Hreg in Hr.
        injection Hr as <- _. congruence.
    + destruct (hass_data h); cbn; eexists;
        (split; [reflexivity|]); intros ? ? ? ? ? [= <-]; congruence.
Qed.

(** A command run on the stored poller: it returns and sends its one
    request. *)
Lemma on_stored_command (p e : string) (rt : EntryRuntime) (h : Hass) :
  let r := on_stored e rt
             (try_except (getJson (Some p) ;; ret tt) log_connect_error) h in
  r.1 = Ok tt ∧
  sent (hass_world r.2) =
  (sent (hass_world h) ++
   [{| req_url := IPMI_URL +:+ "/" +:+ p;
       req_params := connection_params (PYIPMI_DATA rt) |}])%list.
Proof.
  cbv zeta. unfold on_stored.
  pose proof (command_returns p
                {| self := PYIPMI_DATA rt; world := hass_world h |}) as [Hr _].
  pose proof (command_sent p
                {| self := PYIPMI_DATA rt; world := hass_world h |}) as Hs.
  rewrite getJson_sent in Hs.
  destruct (try_except _ _ _) as [r s1]. cbn in Hr, Hs |- *.
  split; assumption.
Qed.

(** X18. An action of one of the five types goes through the schema and on
    to the command of that name, which sends its one request. *)
Lemma known_action_dispatched (op : operation) (t : string)
    (config : ActionConfig) (h : Hass) (device_id domain e : string)
    (others : list string) (m : gmap string EntryRuntime) (rt : EntryRuntime) :
  path_of op = Some t →
  CONF_TYPE config = Some t →
  CONF_DEVICE_ID config = Some device_id →
  CONF_DOMAIN config = Some domain →
  dr_async_get (hass_registry h) device_id = Some (e :: others) →
  hass_data h = Some m →
  m !! e = Some rt →
  (validated_action config h).1 = Ok tt ∧
  sent (hass_world (validated_action config h).2) =
  (sent (hass_world h) ++ [request_of op (PYIPMI_DATA rt)])%list.
Proof.
  intros Hop Ht Hd Hdom Hreg Hdata Hm.
  assert (Hin : t ∈ ACTION_TYPES).
  { apply ACTION_TYPES_elem.
    destruct op; inversion Hop; subst t; repeat constructor. }
  assert (Hattr : getattr t = Ok (BoundMethod (method op))).
  { destruct op; inversion Hop; reflexivity. }
  unfold validated_action, ACTION_SCHEMA, DEVICE_ACTION_BASE_SCHEMA,
    async_call_action_from_config, _get_entry_id_from_device_id,
    try_except, bind, gets, ret, raise, lift_res.
  rewrite Ht, (bool_decide_eq_true_2 _ Hin), Hd, Hdom, Ht, Hd, Hreg, Hdata, Hm,
    Hattr.
  cbn [call]. unfold request_of. rewrite Hop.
  destruct op; try discriminate Hop; injection Hop as <-;
    apply on_stored_command.
Qed.

(** A snapshot without alias, or with an empty one, has no identity. *)
Lemma unique_id_absent_alias (i : IpmiDeviceInfo) :
  present (alias i) = None → _unique_id_from_status i = Ok None.
Proof.
  intros Ha. unfold _unique_id_from_status.
  rewrite truthy_of_opt_str, Ha. reflexivity.
Qed.

(** The snapshot the hook returns for a poller that held none carries
    the poller's alias. *)
Lemma async_update_data_alias (s : St) (i : IpmiDeviceInfo) :
  device_info (self s) = None →
  (async_update_data s).1 = Ok i →
  alias i = _alias (self s).
Proof.
  intros Hnone. rewrite async_update_data_result, update_device_info, Hnone.
  destruct (poll_answer s) as [c|c|j]; try discriminate.
  destruct (getitem j "success") as [v|e]; [|discriminate].
  destruct (truthy v); [|discriminate].
  destruct (getitem j "device"); [|discriminate].
  destruct (getitem j "power_on"); [|discriminate].
  destruct (getitem j "sensors"); [|discriminate].
  destruct (getitem j "states"); [|discriminate].
  intros [= <-]. reflexivity.
Qed.

(** C3. A setup whose entry has no alias, or an empty one, never
    completes: if nothing fails before, the derived identity is [None],
    the concatenation [alias + _unique_id_from_status(...)] raises, and
    the entry id is not substituted. *)
Theorem setup_without_alias_fails (entry : ConfigEntry) (h : Hass) :
  CONF_ALIAS (data entry) = None ∨ CONF_ALIAS (data entry) = Some "" →
  is_ok (async_setup_entry entry h).1 = false.
Proof.
  intros Halias.
  assert (Hp : present (CONF_ALIAS (data entry)) = None).
  { destruct Halias as [->| ->]; reflexivity. }
  unfold async_setup_entry, async_update_entry,
    async_config_entry_first_refresh, on_data, LOGGER_debug, try_except,
    bind, gets, modify, ret, raise, lift_res.
  destruct (CONF_RESOURCES (options entry)); cbn;
    (destruct (CONF_HOST (data entry)) as [host|]; cbn; [|reflexivity]);
    (destruct (CONF_PORT (data entry)) as [port|]; cbn; [|reflexivity]);
    (destruct (async_update_data _) as [[i|e] s1] eqn:Hpoll; cbn;
       [|reflexivity]);
    apply (f_equal fst) in Hpoll; cbn [fst] in Hpoll;
    (apply async_update_data_alias in Hpoll; [|reflexivity]);
    cbn in Hpoll;
    (rewrite unique_id_absent_alias by (rewrite Hpoll; exact Hp)); cbn;
    destruct (CONF_ALIAS (data entry)); reflexivity.
Qed.

(** ** Further properties of the poller *)

(** One run of [update], case by case on the bridge's answer. *)
Lemma update_run (s : St) :
  update s =
  let s1 := after_request (status_request (self s)) s in
  match poll_answer s with
  | ConnectionFails c => (Ok tt, after_error (RequestException c) s1)
  | MalformedBody c => (Ok tt, after_error (JSONDecodeError c) s1)
  | JsonBody j =>
      match getitem j "success" with
      | Raise e => (Ok tt, after_error e s1)
      | Ok v =>
          if truthy v then
            match getitem j "device" with
            | Raise e => (Ok tt, after_error e s1)
            | Ok d =>
            match getitem j "power_on" with
            | Raise e => (Ok tt, after_error e s1)
            | Ok p =>
            match getitem j "sensors" with
            | Raise e => (Ok tt, after_error e s1)
            | Ok se =>
            match getitem j "states" with
            | Raise e => (Ok tt, after_error e s1)
            | Ok st =>
                (Ok tt,
                 on_self (set_device_info
                   (Some {| device := d; power_on := p; sensors := se;
                            states := st; alias := _alias (self s) |})) s1)
            end end end end
          else
            match getitem j "message" with
            | Raise e => (Ok tt, after_error e s1)
            | Ok message =>
                (Ok tt, on_world (world_log (rejection_record message)) s1)
            end
      end
  end.
Proof.
  unfold poll_answer, answer, status_request, connection_params, update,
    after_request, after_error, connect_error_record, rejection_record.
  run_monad.
  destruct (bridge _ _ _) as [c|c|j]; cbn; try reflexivity.
  destruct (getitem j "success") as [v|e]; cbn; [|reflexivity].
  destruct (truthy v); cbn.
  - destruct (getitem j "device"); cbn; [|reflexivity].
    destruct (getitem j "power_on"); cbn; [|reflexivity].
    destruct (getitem j "sensors"); cbn; [|reflexivity].
    destruct (getitem j "states"); cbn; reflexivity.
  - destruct (getitem j "message"); reflexivity.
Qed.

(** X1. The bridge rejects the poll and says why: the message is logged as
    one error record, the poller is left as it was, and [update] returns
    normally. *)
Theorem rejected_poll_logs_message (s : St) (j v message : PyVal) :
  poll_answer s = JsonBody j →
  getitem j "success" = Ok v →
  truthy v = false →
  getitem j "message" = Ok message →
  (update s).1 = Ok tt ∧
  self (update s).2 = self s ∧
  logged (world (update s).2)
    = (logged (world s) ++ [rejection_record message])%list.
Proof.
  intros Ha Hs Hv Hm. rewrite update_run. cbv zeta. rewrite Ha, Hs, Hv, Hm.
  repeat split.
Qed.

(** X2. The bridge rejects the poll without a [message] entry: reading the
    entry raises [KeyError], which the shared handler logs; no
    rejection record is written. *)
Theorem rejected_poll_without_message (s : St) (d : gmap string PyVal)
    (v : PyVal) :
  poll_answer s = JsonBody (PDict d) →
  d !! "success" = Some v →
  truthy v = false →
  d !! "message" = None →
  (update s).1 = Ok tt ∧
  self (update s).2 = self s ∧
  logged (world (update s).2)
    = (logged (world s) ++
       [connect_error_record (self s) (KeyError "message")])%list.
Proof.
  intros Ha Hs Hv Hm. rewrite update_run. cbv zeta. rewrite Ha.
  cbn [getitem]. rewrite Hs, Hv, Hm. repeat split.
Qed.

(** X3. The body is JSON but its [success] entry cannot be read (the body
    is not an object, or has no such entry): the exception of the
    subscription is logged by the shared handler and the poller is left
    as it was. *)
Theorem unreadable_answer_is_logged (s : St) (j : PyVal) (e : exn) :
  poll_answer s = JsonBody j →
  getitem j "success" = Raise e →
  (update s).1 = Ok tt ∧
  self (update s).2 = self s ∧
  logged (world (update s).2)
    = (logged (world s) ++ [connect_error_record (self s) e])%list.
Proof.
  intros Ha Hs. rewrite update_run. cbv zeta. rewrite Ha, Hs. repeat split.
Qed.

(** X4. A poll that stores a snapshot writes nothing to the log. *)
Theorem successful_poll_logs_nothing (s : St) (j v d p se st : PyVal) :
  poll_answer s = JsonBody j →
  getitem j "success" = Ok v →
  truthy v = true →
  getitem j "device" = Ok d →
  getitem j "power_on" = Ok p →
  getitem j "sensors" = Ok se →
  getitem j "states" = Ok st →
  logged (world (update s).2) = logged (world s).
Proof.
  intros Ha Hs Hv Hd Hp Hse Hst. rewrite update_run. cbv zeta.
  rewrite Ha, Hs, Hv, Hd, Hp, Hse, Hst. reflexivity.
Qed.

(** One run of a command, case by case on the bridge's answer. *)
Lemma command_run_cases (op : operation) (s : St) :
  op ≠ Update →
  method op s =
  let s1 := after_request (request_of op (self s)) s in
  match answer s (request_of op (self s)) with
  | ConnectionFails c => (Ok tt, after_error (RequestException c) s1)
  | MalformedBody c => (Ok tt, after_error (JSONDecodeError c) s1)
  | JsonBody _ => (Ok tt, s1)
  end.
Proof.
  intros Hop.
  unfold answer, request_of, connection_params, after_request, after_error,
    connect_error_record.
  destruct op; try contradiction; cbn [method path_of]; run_monad;
    destruct (bridge _ _ _); reflexivity.
Qed.

Lemma operation_eq_dec (a b : operation) : {a = b} + {a ≠ b}.
Proof. decide equality. Qed.

(** C9. Whatever the bridge answers, and for every sequence of calls of
    [update] and of the five commands, no call raises: each returns
    normally, the connection parameters stay as they were, so the next
    call works the same way.  Every exception that arises inside a call
    is turned into exactly one logged error record carrying it: a
    failed request, a body that is not JSON, and for [update] an entry
    that cannot be read; a rejection of the poll is logged with its
    message.  Nothing else is logged: not by a poll that stores a
    snapshot, and not by a command that gets a JSON body, which it does
    not read. *)
Theorem operations_never_raise (ops : list operation) (op : operation) (s : St) :
  (call_all ops s).1 = Ok tt ∧
  connection (self (call_all ops s).2) = connection (self s) ∧
  (method op (call_all ops s).2).1 = Ok tt ∧
  logged (world (method op s).2) =
  (logged (world s) ++
   match answer s (request_of op (self s)) with
   | ConnectionFails c => [connect_error_record (self s) (RequestException c)]
   | MalformedBody c => [connect_error_record (self s) (JSONDecodeError c)]
   | JsonBody j =>
       match op with
       | Update =>
           match getitem j "success" with
           | Raise e => [connect_error_record (self s) e]
           | Ok v =>
               if truthy v then
                 match getitem j "device" with
                 | Raise e => [connect_error_record (self s) e]
                 | Ok _ =>
                 match getitem j "power_on" with
                 | Raise e => [connect_error_record (self s) e]
                 | Ok _ =>
                 match getitem j "sensors" with
                 | Raise e => [connect_error_record (self s) e]
                 | Ok _ =>
                 match getitem j "states" with
                 | Raise e => [connect_error_record (self s) e]
                 | Ok _ => []
                 end end end end
               else
                 match getitem j "message" with
                 | Raise e => [connect_error_record (self s) e]
                 | Ok message => [rejection_record message]
                 end
           end
       | _ => []
       end
   end)%list.
Proof.
  assert (Hseq : ∀ l s0, (call_all l s0).1 = Ok tt ∧
            connection (self (call_all l s0).2) = connection (self s0)).
  { induction l as [|o l IH]; intros s0; cbn [call_all].
    - split; reflexivity.
    - unfold bind. destruct (method_returns o s0) as [Hr Hc].
      destruct (method o s0) as [r s1]; cbn in Hr, Hc. subst r.
      destruct (IH s1) as [Hr' Hc']. split; congruence. }
  destruct (Hseq ops s) as [H1 H2].
  split; [exact H1|]. split; [exact H2|]. split; [apply method_returns|].
  destruct (operation_eq_dec op Update) as [->|Hop].
  - cbn [method]. rewrite update_run. cbv zeta.
    change (answer s (request_of Update (self s))) with (poll_answer s).
    destruct (poll_answer s) as [c|c|j]; [reflexivity..|].
    destruct (getitem j "success") as [v|e]; [|reflexivity].
    destruct (truthy v).
    + destruct (getitem j "device"); [|reflexivity].
      destruct (getitem j "power_on"); [|reflexivity].
      destruct (getitem j "sensors"); [|reflexivity].
      destruct (getitem j "states"); [|reflexivity].
      cbn. rewrite app_nil_r. reflexivity.
    + destruct (getitem j "message"); reflexivity.
  - rewrite command_run_cases by assumption. cbv zeta.
    destruct (answer s (request_of op (self s))); try reflexivity.
    destruct op; try contradiction; cbn; rewrite app_nil_r; reflexivity.
Qed.

(** X5. The five commands never touch the poller object: connection
    parameters and stored snapshot are the same after the call. *)
Theorem commands_keep_poller (op : operation) (s : St) :
  op ≠ Update → self (method op s).2 = self s.
Proof.
  intros Hop. rewrite command_run_cases by assumption. cbv zeta.
  destruct (answer _ _); reflexivity.
Qed.

(** X6. A command does not look at the body it gets: whatever JSON the
    bridge answers, a refusal included, the command returns normally and
    logs nothing. *)
Theorem commands_ignore_body (op : operation) (s : St) (j : PyVal) :
  op ≠ Update →
  answer s (request_of op (self s)) = JsonBody j →
  (method op s).1 = Ok tt ∧
  logged (world (method op s).2) = logged (world s).
Proof.
  intros Hop Ha. rewrite command_run_cases by assumption. cbv zeta.
  rewrite Ha. split; reflexivity.
Qed.

(** Every operation sends its one request. *)
Lemma method_sent (op : operation) (s : St) :
  sent (world (method op s).2)
  = (sent (world s) ++ [request_of op (self s)])%list.
Proof.
  destruct op; cbn [method]; [apply update_sent|..];
    unfold cmd_power_on, cmd_power_off, cmd_power_cycle, cmd_power_reset,
      cmd_soft_shutdown; rewrite command_sent; apply getJson_sent.
Qed.

Lemma request_of_connection (op : operation) (d1 d2 : PyIpmiData) :
  connection d1 = connection d2 → request_of op d1 = request_of op d2.
Proof.
  unfold connection, request_of, connection_params. intros [= -> -> _ -> ->].
  reflexivity.
Qed.

(** X7. A sequence of calls sends one request per call, in the order of the
    calls, each with the parameters the poller was built with. *)
Theorem call_all_sends_one_each (ops : list operation) (s : St) :
  sent (world (call_all ops s).2)
  = (sent (world s) ++ ((λ op, request_of op (self s)) <$> ops))%list.
Proof.
  revert s. induction ops as [|op ops IH]; intros s; cbn [call_all fmap list_fmap].
  - unfold ret. cbn. rewrite app_nil_r. reflexivity.
  - unfold bind.
    pose proof (method_returns op s) as [Hr Hc].
    pose proof (method_sent op s) as Hs.
    destruct (method op s) as [r s1]. cbn in Hr, Hc, Hs. subst r.
    rewrite IH, Hs, <- app_assoc. cbn. do 2 f_equal.
    apply list_fmap_ext. intros _ o _.
    apply request_of_connection. exact Hc.
Qed.

(** X8. The display name is never empty: it is the alias when there is one,
    and the host behind a fixed prefix otherwise. *)
Theorem name_never_empty (d : PyIpmiData) :
  name d ≠ "" ∧
  match present (_alias d) with
  | Some a => name d = a
  | None => name d = "IPMI-" +:+ _host d
  end.
Proof.
  unfold name, present.
  destruct (_alias d) as [a|]; [destruct (String.eqb_spec a "")|];
    (split; [|reflexivity]); try discriminate. assumption.
Qed.

(** ** Further properties of the identity derivation *)

(** X10. With an alias, both names are read before either is used: a device
    without [manufacturer_name] raises [KeyError] even when it has a
    product name, and a device without [product_name] raises [KeyError]
    even when its manufacturer name would have been taken. *)
Theorem unique_id_needs_both_keys (i : IpmiDeviceInfo) (a : string)
    (d : gmap string PyVal) :
  alias i = Some a →
  a ≠ "" →
  device i = PDict d →
  match d !! "manufacturer_name", d !! "product_name" with
  | None, _ => _unique_id_from_status i = Raise (KeyError "manufacturer_name")
  | Some _, None => _unique_id_from_status i = Raise (KeyError "product_name")
  | Some _, Some _ => is_ok (_unique_id_from_status i) = true
                      ∨ ∃ what, _unique_id_from_status i = Raise (TypeError what)
  end.
Proof.
  intros Ha Hne Hd. rewrite unique_id_from_parts, Ha, Hd.
  cbn [of_opt_str truthy getitem].
  destruct (String.eqb_spec a "") as [|_]; [contradiction|]. cbn [negb].
  destruct (d !! "manufacturer_name") as [m|]; [|reflexivity].
  destruct (d !! "product_name") as [p|]; [|reflexivity].
  destruct (truthy m); [|destruct (truthy p)]; cbn [app].
  - destruct m; cbn; eauto.
  - destruct p; cbn; eauto.
  - cbn. eauto.
Qed.

(** X11. The name that is joined with the alias has to be a string: a
    manufacturer (or, failing that, a product) entry that is true but
    not a string makes the join raise [TypeError]. *)
Theorem unique_id_name_not_a_string (i : IpmiDeviceInfo) (a : string)
    (m p : PyVal) :
  alias i = Some a →
  a ≠ "" →
  getitem (device i) "manufacturer_name" = Ok m →
  getitem (device i) "product_name" = Ok p →
  let chosen := if truthy m then m else p in
  truthy chosen = true →
  (∀ x, chosen ≠ PStr x) →
  _unique_id_from_status i
  = Raise (TypeError "sequence item: expected str instance").
Proof.
  intros Ha Hne Hm Hp chosen Ht Hns. subst chosen.
  rewrite unique_id_from_parts, Ha, Hm, Hp.
  cbn [of_opt_str truthy].
  destruct (String.eqb_spec a "") as [|_]; [contradiction|]. cbn [negb].
  destruct (truthy m) eqn:Htm.
  - destruct m; cbn; try reflexivity. exfalso. eapply Hns. reflexivity.
  - rewrite Ht. destruct p; cbn; try reflexivity.
    exfalso. eapply Hns. reflexivity.
Qed.

(** ** Further properties of the setup *)

Lemma async_update_data_run (s : St) :
  async_update_data s =
  (match device_info (self (update s).2) with
   | Some i => Ok i
   | None => Raise (UpdateFailed "Error fetching IPMI state")
   end, (update s).2).
Proof.
  pose proof (method_returns Update s) as [Hret _]. cbn [method] in Hret.
  unfold async_update_data, bind, gets.
  destruct (update s) as [r s1]. cbn in Hret |- *. subst r.
  destruct (device_info (self s1)); reflexivity.
Qed.

Ltac run_setup :=
  unfold async_setup_entry, async_update_entry,
    async_config_entry_first_refresh, on_data, LOGGER_debug, try_except,
    bind, gets, modify, ret, raise, lift_res.

(** X12. Without host or port the setup stops with [KeyError] before
    anything is sent or registered; only a stale [CONF_RESOURCES] option
    has been moved by then. *)
Theorem setup_missing_host_or_port (entry : ConfigEntry) (h : Hass) :
  CONF_HOST (data entry) = None ∨ CONF_PORT (data entry) = None →
  ∃ key,
    async_setup_entry entry h = (Raise (KeyError key), with_migrated entry h).
Proof.
  intros Hmiss. run_setup. unfold with_migrated, migrated.
  destruct (CONF_RESOURCES (options entry)); cbn;
    (destruct (CONF_HOST (data entry)); cbn; [|eauto]);
    (destruct (CONF_PORT (data entry)); cbn; [|eauto]);
    destruct Hmiss; discriminate.
Qed.

(** X13. When the first poll fails the setup ends with [ConfigEntryNotReady]:
    the one status request has gone out, and nothing has been stored,
    registered, subscribed or forwarded. *)
Theorem setup_first_poll_fails (entry : ConfigEntry) (h : Hass)
    (host : string) (port : Z) :
  CONF_HOST (data entry) = Some host →
  CONF_PORT (data entry) = Some port →
  let s0 := {| self := poller_of host port (data entry);
               world := hass_world h |} in
  reports_success (poll_answer s0) = false →
  let r := async_setup_entry entry h in
  r.1 = Raise (ConfigEntryNotReady "Error fetching IPMI resource status data") ∧
  sent (hass_world r.2)
    = (sent (hass_world h) ++ [status_request (self s0)])%list ∧
  hass_data r.2 = hass_data h ∧
  hass_registry r.2 = hass_registry h ∧
  hass_listeners r.2 = hass_listeners h ∧
  hass_forwarded r.2 = hass_forwarded h.
Proof.
  intros Hhost Hport s0 Hfail r. subst r.
  pose proof (update_device_info_failed s0 Hfail) as Hkeep.
  pose proof (update_sent s0) as Hsent.
  run_setup.
  destruct (CONF_RESOURCES (options entry)); cbn; rewrite Hhost, Hport; cbn;
    change (PyIpmiData_init host port _ _ _)
      with (poller_of host port (data entry));
    change {| self := poller_of host port (data entry);
              world := hass_world h |} with s0;
    rewrite async_update_data_run, Hkeep; cbn;
    repeat split; exact Hsent.
Qed.

(** X14. A setup that goes through: the poller, with the first snapshot in
    it, is stored under the entry id together with the coordinator and
    the command names; the identifier stored and registered is the alias
    followed by the derived identity; the device is registered under the
    [str.title()] of the alias with the three entries of [device]; the listener
    is subscribed and the platforms are forwarded. *)
Theorem setup_registers_device (entry : ConfigEntry) (h : Hass)
    (host a uid : string) (port : Z) (j v d p se st mf model fw : PyVal) :
  CONF_HOST (data entry) = Some host →
  CONF_PORT (data entry) = Some port →
  CONF_ALIAS (data entry) = Some a →
  let s0 := {| self := poller_of host port (data entry);
               world := hass_world h |} in
  let info := {| device := d; power_on := p; sensors := se; states := st;
                 alias := Some a |} in
  poll_answer s0 = JsonBody j →
  getitem j "success" = Ok v →
  truthy v = true →
  getitem j "device" = Ok d →
  getitem j "power_on" = Ok p →
  getitem j "sensors" = Ok se →
  getitem j "states" = Ok st →
  _unique_id_from_status info = Ok (Some uid) →
  getitem d "manufacturer_name" = Ok mf →
  getitem d "product_name" = Ok model →
  getitem d "firmware_revision" = Ok fw →
  let r := async_setup_entry entry h in
  r.1 = Ok true ∧
  hass_data r.2 =
    Some (<[entry_id entry :=
              {| COORDINATOR :=
                   {| coordinator_name := "IPMI resource status";
                      update_interval :=
                        default DEFAULT_SCAN_INTERVAL
                          (CONF_SCAN_INTERVAL (options entry));
                      coordinator_data := Some info |};
                 PYIPMI_DATA := set_device_info (Some info) (self s0);
                 PYIPMI_UNIQUE_ID := a +:+ uid;
                 USER_AVAILABLE_COMMANDS := INTEGRATION_SUPPORTED_COMMANDS |}]>
            (default ∅ (hass_data h))) ∧
  hass_registry r.2 =
    dr_async_get_or_create (entry_id entry) (DOMAIN, a +:+ uid) (str_title a)
      mf model fw (hass_registry h) ∧
  hass_listeners r.2 = (hass_listeners h ++ [entry_id entry])%list ∧
  hass_forwarded r.2 = (hass_forwarded h ++ [(entry_id entry, PLATFORMS)])%list ∧
  sent (hass_world r.2)
    = (sent (hass_world h) ++ [status_request (self s0)])%list.
Proof.
  intros Hhost Hport Halias s0 info Ha Hs Hv Hd Hp Hse Hst Huid Hmf Hmodel Hfw r.
  subst r.
  assert (Hne : String.eqb a "" = false).
  { destruct (String.eqb_spec a "") as [->|]; [|reflexivity].
    rewrite unique_id_empty_alias in Huid by reflexivity. discriminate. }
  assert (Hrun : update s0 =
            (Ok tt, on_self (set_device_info (Some info))
                      (after_request (status_request (self s0)) s0))).
  { rewrite update_run. cbv zeta. rewrite Ha, Hs, Hv, Hd, Hp, Hse, Hst.
    subst info s0. cbn. unfold poller_of. cbn. rewrite Halias. reflexivity. }
  run_setup.
  destruct (CONF_RESOURCES (options entry)); cbn; rewrite Hhost, Hport; cbn;
    change (PyIpmiData_init host port _ _ _)
      with (poller_of host port (data entry));
    change {| self := poller_of host port (data entry);
              world := hass_world h |} with s0;
    rewrite async_update_data_run, Hrun; cbn;
    fold info; rewrite Huid, Halias; cbn; rewrite Hmf, Hmodel, Hfw; cbn;
    unfold name, poller_of; cbn; rewrite Halias, Hne;
    repeat split.
Qed.

(** X15. A setup can fail after it has stored its data: when [device] has the
    two names but no [firmware_revision], the [KeyError] comes from the
    registration, by which time the entry's data is already in
    [hass.data] and the listener is subscribed, while no device is
    registered and no platform forwarded. *)
Theorem setup_missing_firmware (entry : ConfigEntry) (h : Hass)
    (host a uid : string) (port : Z) (j v p se st : PyVal)
    (d : gmap string PyVal) :
  CONF_HOST (data entry) = Some host →
  CONF_PORT (data entry) = Some port →
  CONF_ALIAS (data entry) = Some a →
  let s0 := {| self := poller_of host port (data entry);
               world := hass_world h |} in
  let info := {| device := PDict d; power_on := p; sensors := se;
                 states := st; alias := Some a |} in
  poll_answer s0 = JsonBody j →
  getitem j "success" = Ok v →
  truthy v = true →
  getitem j "device" = Ok (PDict d) →
  getitem j "power_on" = Ok p →
  getitem j "sensors" = Ok se →
  getitem j "states" = Ok st →
  _unique_id_from_status info = Ok (Some uid) →
  d !! "firmware_revision" = None →
  let r := async_setup_entry entry h in
  r.1 = Raise (KeyError "firmware_revision") ∧
  (hass_data r.2 ≫= (.!! entry_id entry)) =
    Some {| COORDINATOR :=
              {| coordinator_name := "IPMI resource status";
                 update_interval :=
                   default DEFAULT_SCAN_INTERVAL
                     (CONF_SCAN_INTERVAL (options entry));
                 coordinator_data := Some info |};
            PYIPMI_DATA := set_device_info (Some info) (self s0);
            PYIPMI_UNIQUE_ID := a +:+ uid;
            USER_AVAILABLE_COMMANDS := INTEGRATION_SUPPORTED_COMMANDS |} ∧
  hass_listeners r.2 = (hass_listeners h ++ [entry_id entry])%list ∧
  hass_registry r.2 = hass_registry h ∧
  hass_forwarded r.2 = hass_forwarded h.
Proof.
  intros Hhost Hport Halias s0 info Ha Hs Hv Hd Hp Hse Hst Huid Hfw r.
  subst r.
  assert (Hne : String.eqb a "" = false).
  { destruct (String.eqb_spec a "") as [->|]; [|reflexivity].
    rewrite unique_id_empty_alias in Huid by reflexivity. discriminate. }
  assert (Hkeys : ∃ mf model, d !! "manufacturer_name" = Some mf ∧
                              d !! "product_name" = Some model).
  { rewrite unique_id_from_parts in Huid. subst info.
    cbn [alias device of_opt_str truthy getitem] in Huid.
    rewrite Hne in Huid. cbn [negb] in Huid.
    destruct (d !! "manufacturer_name") as [mf|]; [|discriminate].
    destruct (d !! "product_name") as [model|]; [|discriminate]. eauto. }
  destruct Hkeys as (mf & model & Hmf & Hmodel).
  assert (Hrun : update s0 =
            (Ok tt, on_self (set_device_info (Some info))
                      (after_request (status_request (self s0)) s0))).
  { rewrite update_run. cbv zeta. rewrite Ha, Hs, Hv, Hd, Hp, Hse, Hst.
    subst info s0. cbn. unfold poller_of. cbn. rewrite Halias. reflexivity. }
  run_setup.
  destruct (CONF_RESOURCES (options entry)); cbn; rewrite Hhost, Hport; cbn;
    change (PyIpmiData_init host port _ _ _)
      with (poller_of host port (data entry));
    change {| self := poller_of host port (data entry);
              world := hass_world h |} with s0;
    rewrite async_update_data_run, Hrun; cbn;
    fold info; rewrite Huid, Halias; cbn; rewrite Hmf, Hmodel, Hfw; cbn;
    rewrite lookup_insert_eq; repeat split.
Qed.

Ltac case_all :=
  repeat match goal with
         | |- context [match ?x with _ => _ end] => destruct x; cbn
         end.

(** X16. Whatever becomes of the setup, the entries the host keeps differ
    from before by the migration alone: an entry whose options carry
    [CONF_RESOURCES] is stored with that value moved to its data and
    removed from its options, and no entry is touched otherwise. *)
Theorem setup_moves_resources (entry : ConfigEntry) (h : Hass) :
  hass_entries (async_setup_entry entry h).2 =
  match CONF_RESOURCES (options entry) with
  | Some resources =>
      <[entry_id entry :=
          {| entry_id := entry_id entry;
             data := {| CONF_HOST := CONF_HOST (data entry);
                        CONF_PORT := CONF_PORT (data entry);
                        CONF_ALIAS := CONF_ALIAS (data entry);
                        CONF_USERNAME := CONF_USERNAME (data entry);
                        CONF_PASSWORD := CONF_PASSWORD (data entry);
                        data_CONF_RESOURCES := Some resources |};
             options :=
               {| CONF_SCAN_INTERVAL := CONF_SCAN_INTERVAL (options entry);
                  CONF_RESOURCES := None |} |}]> (hass_entries h)
  | None => hass_entries h
  end.
Proof.
  run_setup.
  destruct (CONF_RESOURCES (options entry)); cbn;
    (destruct (CONF_HOST (data entry)); cbn; [|reflexivity]);
    (destruct (CONF_PORT (data entry)); cbn; [|reflexivity]);
    (destruct (async_update_data _) as [[i|e] s1]; cbn; [|reflexivity]);
    (destruct (_unique_id_from_status i); cbn; [|reflexivity]);
    (destruct (str_add _ _); cbn; [|reflexivity]);
    (destruct (_device_info (self s1)); cbn; [|reflexivity]);
    case_all; reflexivity.
Qed.

(** A setup that returns has stored the entry's data under its id. *)
Lemma setup_stores_runtime (entry : ConfigEntry) (h : Hass) (b : bool) :
  (async_setup_entry entry h).1 = Ok b →
  ∃ rt, hass_data (async_setup_entry entry h).2
        = Some (<[entry_id entry := rt]> (default ∅ (hass_data h))).
Proof.
  run_setup.
  destruct (CONF_RESOURCES (options entry)); cbn;
    (destruct (CONF_HOST (data entry)); cbn; [|discriminate]);
    (destruct (CONF_PORT (data entry)); cbn; [|discriminate]);
    (destruct (async_update_data _) as [[i|e] s1]; cbn; [|discriminate]);
    (destruct (_unique_id_from_status i); cbn; [|discriminate]);
    (destruct (str_add _ _); cbn; [|discriminate]);
    (destruct (_device_info (self s1)); cbn; [|discriminate]);
    case_all; intros; try discriminate; eauto.
Qed.

(** ** Properties of the unloading *)

(** X17. Unloading undoes what the setup stored: after a setup that went
    through, an accepted unload returns [True] and leaves [hass.data]
    without the entry and otherwise as it was before the setup; a second
    unload finds nothing to remove and raises [KeyError]; an unload the
    host refuses removes nothing. *)
Theorem unload_after_setup (entry : ConfigEntry) (h : Hass) :
  (async_setup_entry entry h).1 = Ok true →
  let h1 := (async_setup_entry entry h).2 in
  let r := async_unload_entry true entry h1 in
  r.1 = Ok true ∧
  hass_data r.2 = Some (delete (entry_id entry) (default ∅ (hass_data h))) ∧
  (async_unload_entry true entry r.2).1 = Raise (KeyError (entry_id entry)) ∧
  async_unload_entry false entry h1 = (Ok false, h1).
Proof.
  intros Hok h1 r.
  destruct (setup_stores_runtime entry h true Hok) as [rt Hrt].
  fold h1 in Hrt. subst r.
  unfold async_unload_entry, bind, gets, modify, ret, raise.
  rewrite Hrt, lookup_insert_eq. cbn. rewrite lookup_delete_eq.
  rewrite delete_insert_eq. repeat split.
Qed.


(** ** Further properties of the device actions *)

Ltac run_action :=
  unfold async_call_action_from_config, async_get_actions,
    _get_entry_id_from_device_id, try_except, bind, gets, modify, ret, raise,
    lift_res.

(** X19. For a known device the listing gives one action per stored command
    and nothing else, each for the device asked about and for this
    integration's domain; the host is left as it was. *)
Theorem get_actions_lists_commands (h : Hass) (device_id e : string)
    (others : list string) (m : gmap string EntryRuntime) (rt : EntryRuntime) :
  dr_async_get (hass_registry h) device_id = Some (e :: others) →
  hass_data h = Some m →
  m !! e = Some rt →
  ∃ actions,
    async_get_actions device_id h = (Ok actions, h) ∧
    (∀ a, a ∈ actions ↔
          ∃ t, t ∈ USER_AVAILABLE_COMMANDS rt ∧ a = offered_action device_id t) ∧
    length actions = size (USER_AVAILABLE_COMMANDS rt).
Proof.
  intros Hreg Hdata Hm. run_action. rewrite Hreg, Hdata, Hm. cbn.
  eexists. split; [reflexivity|]. split.
  - intros a. rewrite list_elem_of_fmap. unfold offered_action.
    split; intros (t & Ht1 & Ht2).
    + exists t. split; [|exact Ht1]. apply elem_of_elements. exact Ht2.
    + exists t. split; [exact Ht2|]. apply elem_of_elements. exact Ht1.
  - rewrite length_fmap. reflexivity.
Qed.

(** X20. What the listing offers, the schema accepts: when the entry stores
    the supported commands, as the setup makes it do, every offered
    action passes [ACTION_SCHEMA] unchanged. *)
Theorem offered_actions_are_valid (h : Hass) (device_id e : string)
    (others : list string) (m : gmap string EntryRuntime) (rt : EntryRuntime)
    (actions : list ActionConfig) (a : ActionConfig) :
  dr_async_get (hass_registry h) device_id = Some (e :: others) →
  hass_data h = Some m →
  m !! e = Some rt →
  USER_AVAILABLE_COMMANDS rt = INTEGRATION_SUPPORTED_COMMANDS →
  (async_get_actions device_id h).1 = Ok actions →
  a ∈ actions →
  ACTION_SCHEMA a = Ok a.
Proof.
  intros Hreg Hdata Hm Hcmds. run_action. rewrite Hreg, Hdata, Hm. cbn.
  intros [= <-] Ha. apply list_elem_of_fmap in Ha as (t & -> & Ht).
  apply elem_of_elements in Ht. rewrite Hcmds in Ht.
  assert (Hin : t ∈ ACTION_TYPES).
  { apply ACTION_TYPES_elem. clear -Ht.
    unfold INTEGRATION_SUPPORTED_COMMANDS in Ht. set_unfold.
    destruct Ht as [[[[Ht|Ht]|Ht]|Ht]|Ht]; subst t; tauto. }
  unfold ACTION_SCHEMA, DEVICE_ACTION_BASE_SCHEMA. cbn.
  rewrite (bool_decide_eq_true_2 _ Hin). reflexivity.
Qed.

(** X21. A device the registry does not know has no actions, and an action
    called for it raises [KeyError]; nothing is sent or changed. *)
Theorem unknown_device_has_no_actions (config : ActionConfig) (h : Hass)
    (device_id t : string) :
  dr_async_get (hass_registry h) device_id = None →
  CONF_TYPE config = Some t →
  CONF_DEVICE_ID config = Some device_id →
  async_get_actions device_id h = (Ok [], h) ∧
  ∃ key, async_call_action_from_config config h = (Raise (KeyError key), h).
Proof.
  intros Hreg Ht Hd. run_action. rewrite Ht, Hd. cbn. rewrite !Hreg. cbn.
  split; [reflexivity|]. destruct (hass_data h); eexists; reflexivity.
Qed.

(** X22. A device that belongs to no config entry: the [StopIteration] of
    [next] surfaces as a [RuntimeError], from the listing and from the
    call alike; nothing is sent or changed. *)
Theorem device_without_entry_raises (config : ActionConfig) (h : Hass)
    (device_id t : string) :
  dr_async_get (hass_registry h) device_id = Some [] →
  CONF_TYPE config = Some t →
  CONF_DEVICE_ID config = Some device_id →
  async_get_actions device_id h
    = (Raise (RuntimeError "coroutine raised StopIteration"), h) ∧
  async_call_action_from_config config h
    = (Raise (RuntimeError "coroutine raised StopIteration"), h).
Proof.
  intros Hreg Ht Hd. run_action. rewrite Ht, Hd. cbn. rewrite !Hreg. cbn.
  split; reflexivity.
Qed.

(** What [getattr] can find: one of the six methods, or something that
    cannot be called without arguments, or something without effect. *)
Lemma getattr_cases (n : string) (a : attribute) :
  getattr n = Ok a →
  (∃ op, a = BoundMethod (method op)) ∨
  a = NeedsArguments ∨ a = NoEffect ∨ a = NotCallable.
Proof.
  unfold getattr, PyIpmiData_attributes. cbn [find_attribute].
  repeat (destruct (String.eqb _ n);
          [intros [= <-];
           first [ left; (exists Update + exists PowerOn + exists PowerOff +
                          exists PowerCycle + exists PowerReset +
                          exists SoftShutdown); reflexivity
                 | right; left; reflexivity
                 | right; right; left; reflexivity
                 | right; right; right; reflexivity ] |]).
  discriminate.
Qed.

(** X23. Whatever the action asks for, [async_call_action_from_config] sends
    at most one request, and leaves the registry, the config entries,
    the listeners and the forwarded platforms alone. *)
Theorem call_action_sends_at_most_one (config : ActionConfig) (h : Hass) :
  let r := async_call_action_from_config config h in
  (length (sent (hass_world r.2)) ≤ S (length (sent (hass_world h))))%nat ∧
  hass_registry r.2 = hass_registry h ∧
  hass_entries r.2 = hass_entries h ∧
  hass_listeners r.2 = hass_listeners h ∧
  hass_forwarded r.2 = hass_forwarded h.
Proof.
  cbv zeta. run_action.
  destruct (CONF_TYPE config) as [t|]; cbn; [|repeat split; lia].
  destruct (CONF_DEVICE_ID config) as [dev|]; cbn; [|repeat split; lia].
  destruct (dr_async_get (hass_registry h) dev) as [[|e others]|]; cbn;
    try (destruct (hass_data h); cbn; repeat split; lia).
  destruct (hass_data h) as [m|]; cbn; [|repeat split; lia].
  destruct (m !! e) as [rt|]; cbn; [|repeat split; lia].
  destruct (getattr t) as [a|err] eqn:Hattr; cbn; [|repeat split; lia].
  unfold on_stored.
  apply getattr_cases in Hattr.
  destruct Hattr as [[op Hattr]|[Hattr|[Hattr|Hattr]]]; subst a; cbn [call].
  - pose proof (method_sent op
                  {| self := PYIPMI_DATA rt; world := hass_world h |}) as Hs.
    destruct (method op _) as [r s1]. cbn in Hs |- *.
    rewrite Hs, length_app. cbn. repeat split; lia.
  - cbn. repeat split; lia.
  - cbn. repeat split; lia.
  - cbn. repeat split; lia.
Qed.

End Integration.

(** ** The properties at the sample data *)

(** C1 at a concrete poll: [rack3] holds a snapshot, the bridge cannot be
    reached, and the hook returns the held snapshot as a result. *)
Lemma unreachable_bridge_gives_stale_rack3 :
  device_info (self (rack3_polled_before (ConnectionFails "timed out")))
    = Some earlier_snapshot ∧
  reports_success
    (poll_answer sample_url (rack3_polled_before (ConnectionFails "timed out")))
    = false ∧
  (async_update_data sample_url
     (rack3_polled_before (ConnectionFails "timed out"))).1
    = Ok earlier_snapshot.
Proof.
  split; [reflexivity|]. split; [reflexivity|].
  apply (failed_poll_returns_stale_snapshot sample_url
           (rack3_polled_before (ConnectionFails "timed out"))
           earlier_snapshot); reflexivity.
Defined.

(** The same when the bridge answers [success: false]. *)
Example rejected_poll_returns_stale_snapshot :
  (async_update_data sample_url
     (rack3_polled_before (JsonBody rejected_body))).1 = Ok earlier_snapshot ∧
  logged (world (async_update_data sample_url
     (rack3_polled_before (JsonBody rejected_body))).2)
    = [{| log_lvl := ERROR; log_msg := PStr "auth failed"; log_args := [] |}].
Proof. split; vm_compute; reflexivity. Qed.

(** C2 at a concrete action: [reboot] is no attribute of the poller; on
    a host that holds [rack3] the schema rejects the action, and the
    call fails with [AttributeError] and leaves the host as it was. *)
Lemma reboot_action_fails_on_rack3 :
  let h := hass_with_rack3 list_registry
             (world_answering (JsonBody acme_body))
             [("rack3-device", ["0123456789abcdef"])] in
  (CONF_TYPE (action_of_type "reboot") = Some "reboot" ∧
   ("reboot" ∉ ["power_on"; "power_off"; "power_cycle"; "power_reset";
                "soft_shutdown"]) ∧
   (∃ what, ACTION_SCHEMA (action_of_type "reboot") = Raise (Invalid what)) ∧
   async_call_action_from_config sample_url "ipmi" list_registry
     list_registry_get (action_of_type "reboot") h
   = (Raise (AttributeError "reboot"), h)).
Proof.
  cbv zeta.
  assert (Hout : "reboot" ∉ ["power_on"; "power_off"; "power_cycle";
                             "power_reset"; "soft_shutdown"]).
  { intros Hin.
    repeat (apply elem_of_cons in Hin; destruct Hin as [Hin|Hin];
            [discriminate|]).
    by apply elem_of_nil in Hin. }
  split; [reflexivity|]. split; [exact Hout|].
  destruct (unknown_action_sends_nothing sample_url "ipmi" list_registry
              list_registry_get (action_of_type "reboot")
              (hass_with_rack3 list_registry
                 (world_answering (JsonBody acme_body))
                 [("rack3-device", ["0123456789abcdef"])])
              "reboot" eq_refl Hout) as (Hschema & _ & Hfail & _).
  split; [exact Hschema|].
  destruct (Hfail eq_refl) as (e & Hrun & He).
  rewrite Hrun.
  rewrite (He "rack3-device" "0123456789abcdef" []
              {[ "0123456789abcdef" := rack3_runtime ]} rack3_runtime
              eq_refl eq_refl eq_refl eq_refl).
  reflexivity.
Defined.

(** C2 as the specification words it fails at the type [update]: it is
    not one of the five names, yet on a host that holds [rack3] the call
    raises nothing and sends a status poll. *)
Lemma update_action_polls_rack3 :
  let h := hass_with_rack3 list_registry
             (world_answering (JsonBody acme_body))
             [("rack3-device", ["0123456789abcdef"])] in
  let r := async_call_action_from_config sample_url "ipmi" list_registry
             list_registry_get (action_of_type "update") h in
  (("update" ∉ ["power_on"; "power_off"; "power_cycle"; "power_reset";
                "soft_shutdown"]) ∧
   r.1 = Ok tt ∧
   sent (hass_world list_registry r.2)
     = [status_request sample_url (PYIPMI_DATA rack3_runtime)] ∧
   ¬ (is_ok r.1 = false ∧
      sent (hass_world list_registry r.2)
        = sent (hass_world list_registry h))).
Proof.
  cbv zeta. split.
  { intros Hin.
    repeat (apply elem_of_cons in Hin; destruct Hin as [Hin|Hin];
            [discriminate|]).
    by apply elem_of_nil in Hin. }
  split; [vm_compute; reflexivity|]. split; [vm_compute; reflexivity|].
  intros [Hfail _]. vm_compute in Hfail. discriminate Hfail.
Qed.

(** C3 at a concrete entry: no alias, a bridge that answers well. *)
Lemma aliasless_entry_never_set_up :
  CONF_ALIAS (data entry_without_alias) = None ∧
  is_ok (async_setup_entry sample_url "ipmi" ["sensor"; "switch"] 10 list_registry
           list_registry_create ascii_title entry_without_alias
           (fresh_hass list_registry (world_answering (JsonBody acme_body)) [])).1 = false.
Proof.
  split; [reflexivity|].
  apply (setup_without_alias_fails sample_url "ipmi" ["sensor"; "switch"] 10
           list_registry list_registry_create ascii_title entry_without_alias).
  left. reflexivity.
Defined.

(** What that setup raises: the [TypeError] of [None + None], after the
    first poll went through. *)
Example setup_without_alias_raises_TypeError :
  let r := async_setup_entry sample_url "ipmi" ["sensor"; "switch"] 10 list_registry
             list_registry_create ascii_title entry_without_alias
             (fresh_hass list_registry (world_answering (JsonBody acme_body)) []) in
  r.1 = Raise (TypeError "unsupported operand type(s) for +") ∧
  length (sent (hass_world list_registry r.2)) = 1%nat ∧
  hass_data list_registry r.2 = None.
Proof. vm_compute. repeat split. Qed.

(** With an alias the setup completes; the identifier it registers is
    the alias followed by the derived identity. *)
Example setup_with_alias_completes :
  let r := async_setup_entry sample_url "ipmi" ["sensor"; "switch"] 10 list_registry
             list_registry_create ascii_title entry_with_alias
             (fresh_hass list_registry (world_answering (JsonBody acme_body)) []) in
  r.1 = Ok true ∧
  hass_registry list_registry r.2 = [("rack3Acme_rack3", ["0123456789abcdef"])] ∧
  (PYIPMI_UNIQUE_ID <$> (hass_data list_registry r.2 ≫= (.!! "0123456789abcdef")))
    = Some "rack3Acme_rack3".
Proof. vm_compute. repeat split. Qed.

(** C4 at a concrete poll: the body is not JSON. *)
Lemma malformed_body_keeps_rack3_snapshot :
  reports_success
    (poll_answer sample_url (rack3_polled_before (MalformedBody "not JSON")))
    = false ∧
  device_info (self (update sample_url
    (rack3_polled_before (MalformedBody "not JSON"))).2)
  = device_info (self (rack3_polled_before (MalformedBody "not JSON"))).
Proof.
  split; [reflexivity|].
  apply (failed_poll_keeps_snapshot sample_url
           (rack3_polled_before (MalformedBody "not JSON"))). reflexivity.
Defined.

(** C5 at a concrete poll: the earlier snapshot is gone, sensors and all. *)
Lemma acme_body_replaces_rack3_snapshot :
  poll_answer sample_url (rack3_polled_before (JsonBody acme_body))
    = JsonBody acme_body ∧
  reports_success (JsonBody acme_body) = true ∧
  device_info (self (update sample_url
    (rack3_polled_before (JsonBody acme_body))).2)
  = Some (acme_snapshot (Some "rack3")).
Proof.
  split; [reflexivity|]. split; [reflexivity|].
  apply (successful_poll_replaces_snapshot sample_url
           (rack3_polled_before (JsonBody acme_body)) acme_body
           acme_device (PBool true) (PDict ∅) (PDict ∅)); reflexivity.
Defined.

(** C10 at a concrete poll: success is reported, [states] is missing. *)
Lemma missing_states_keeps_rack3_snapshot :
  reports_success
    (poll_answer sample_url (rack3_polled_before (JsonBody incomplete_body)))
    = true ∧
  has_snapshot_keys
    (poll_answer sample_url (rack3_polled_before (JsonBody incomplete_body)))
    = false ∧
  device_info (self (update sample_url
    (rack3_polled_before (JsonBody incomplete_body))).2)
  = Some earlier_snapshot.
Proof.
  split; [reflexivity|]. split; [reflexivity|].
  apply (incomplete_answer_keeps_snapshot sample_url
           (rack3_polled_before (JsonBody incomplete_body))); reflexivity.
Defined.

(** C7 at concrete snapshots: two snapshots of the same machine that
    differ in power state and sensors, and one without alias. *)
Lemma acme_unique_id_same_for_both :
  alias (acme_snapshot (Some "rack3")) = alias earlier_snapshot ∧
  _unique_id_from_status (acme_snapshot (Some "rack3"))
    = _unique_id_from_status earlier_snapshot ∧
  alias (acme_snapshot None) = None ∧
  _unique_id_from_status (acme_snapshot None) = Ok None.
Proof.
  split; [reflexivity|]. split.
  - apply (proj1 unique_id_deterministic); reflexivity.
  - split; [reflexivity|]. apply (proj2 unique_id_deterministic). reflexivity.
Defined.

(** C6 at the scenario of the specification: [Acme], [X1], [rack3]. *)
Lemma acme_rack3_unique_id :
  alias (acme_snapshot (Some "rack3")) = Some "rack3" ∧
  "rack3" ≠ "" ∧
  _unique_id_from_status (acme_snapshot (Some "rack3")) = Ok (Some "Acme_rack3").
Proof.
  split; [reflexivity|]. split; [discriminate|].
  exact (unique_id_with_alias (acme_snapshot (Some "rack3")) "rack3"
           (list_to_map
              [ ("manufacturer_name", PStr "Acme");
                ("product_name", PStr "X1");
                ("firmware_revision", PStr "1.0") ])
           eq_refl ltac:(discriminate) eq_refl
           (Some "Acme") (Some "X1") eq_refl eq_refl).
Defined.

(** C6 as the specification words it fails where the device reports
    neither name: the code gives the alias alone, the wording gives the
    separator and the alias.  It fails as well where the manufacturer
    entry is missing: the code raises and does not go on to the product
    name. *)
Lemma nameless_device_unique_id :
  _unique_id_from_status nameless_snapshot = Ok (Some "rack3") ∧
  identity_as_specified "" "" "rack3" = "_rack3" ∧
  ¬ (∀ (i : IpmiDeviceInfo) (a m p : string),
       alias i = Some a →
       a ≠ "" →
       getitem (device i) "manufacturer_name" = Ok (PStr m) →
       getitem (device i) "product_name" = Ok (PStr p) →
       _unique_id_from_status i = Ok (Some (identity_as_specified m p a))) ∧
  getitem (device unbranded_snapshot) "product_name" = Ok (PStr "X1") ∧
  _unique_id_from_status unbranded_snapshot
    = Raise (KeyError "manufacturer_name").
Proof.
  split; [reflexivity|]. split; [reflexivity|].
  split; [|split; reflexivity].
  intros Hclaim.
  specialize (Hclaim nameless_snapshot "rack3" "" "").
  assert (Hneq : "rack3" ≠ "") by discriminate.
  specialize (Hclaim eq_refl Hneq eq_refl eq_refl).
  vm_compute in Hclaim. discriminate Hclaim.
Qed.

(** ** The further properties at the sample data *)

(** The rejection of the specification's scenario: [auth failed]. *)
Lemma auth_failure_is_logged :
  poll_answer sample_url (rack3_polled_before (JsonBody rejected_body))
    = JsonBody rejected_body ∧
  getitem rejected_body "message" = Ok (PStr "auth failed") ∧
  logged (world (update sample_url
    (rack3_polled_before (JsonBody rejected_body))).2)
  = [rejection_record (PStr "auth failed")].
Proof.
  split; [reflexivity|]. split; [reflexivity|].
  apply (rejected_poll_logs_message sample_url
           (rack3_polled_before (JsonBody rejected_body)) rejected_body
           (PBool false) (PStr "auth failed")); reflexivity.
Defined.

(** A rejection that says nothing. *)
Lemma silent_rejection_logs_KeyError :
  poll_answer sample_url (rack3_polled_before (JsonBody silent_rejection_body))
    = JsonBody silent_rejection_body ∧
  logged (world (update sample_url
    (rack3_polled_before (JsonBody silent_rejection_body))).2)
  = [connect_error_record
       (self (rack3_polled_before (JsonBody silent_rejection_body)))
       (KeyError "message")].
Proof.
  split; [reflexivity|].
  apply (rejected_poll_without_message sample_url
           (rack3_polled_before (JsonBody silent_rejection_body))
           (list_to_map [("success", PBool false)]) (PBool false));
    reflexivity.
Defined.

(** A body that is a JSON list. *)
Lemma list_body_logs_TypeError :
  poll_answer sample_url (rack3_polled_before (JsonBody (PList [])))
    = JsonBody (PList []) ∧
  self (update sample_url (rack3_polled_before (JsonBody (PList [])))).2
    = self (rack3_polled_before (JsonBody (PList []))) ∧
  logged (world (update sample_url
    (rack3_polled_before (JsonBody (PList [])))).2)
  = [connect_error_record (self (rack3_polled_before (JsonBody (PList []))))
       (TypeError "list indices must be integers or slices")].
Proof.
  split; [reflexivity|].
  apply (unreadable_answer_is_logged sample_url
           (rack3_polled_before (JsonBody (PList []))) (PList [])
           (TypeError "list indices must be integers or slices"));
    reflexivity.
Defined.

(** The Acme answer. *)
Lemma acme_poll_logs_nothing :
  poll_answer sample_url (rack3_polled_before (JsonBody acme_body))
    = JsonBody acme_body ∧
  logged (world (update sample_url
    (rack3_polled_before (JsonBody acme_body))).2) = [].
Proof.
  split; [reflexivity|].
  apply (successful_poll_logs_nothing sample_url
           (rack3_polled_before (JsonBody acme_body)) acme_body
           (PBool true) acme_device (PBool true) (PDict ∅) (PDict ∅));
    reflexivity.
Defined.

(** A power-off that cannot reach the bridge. *)
Lemma power_off_keeps_rack3 :
  PowerOff ≠ Update ∧
  self (method sample_url PowerOff
          (rack3_polled_before (ConnectionFails "timed out"))).2
  = self (rack3_polled_before (ConnectionFails "timed out")).
Proof.
  split; [discriminate|].
  apply (commands_keep_poller sample_url PowerOff
           (rack3_polled_before (ConnectionFails "timed out"))).
  discriminate.
Defined.

(** A power-off the bridge refuses. *)
Lemma refused_power_off_logs_nothing :
  answer (rack3_polled_before (JsonBody rejected_body))
    (request_of sample_url PowerOff
       (self (rack3_polled_before (JsonBody rejected_body))))
    = JsonBody rejected_body ∧
  (method sample_url PowerOff
     (rack3_polled_before (JsonBody rejected_body))).1 = Ok tt ∧
  logged (world (method sample_url PowerOff
     (rack3_polled_before (JsonBody rejected_body))).2) = [].
Proof.
  split; [reflexivity|].
  apply (commands_ignore_body sample_url PowerOff
           (rack3_polled_before (JsonBody rejected_body)) rejected_body);
    [discriminate|reflexivity].
Defined.

(** The very first poll, bridge out of reach. *)
Lemma first_poll_of_rack3_unreachable :
  device_info (self (rack3_never_polled (ConnectionFails "timed out"))) = None ∧
  (async_update_data sample_url
     (rack3_never_polled (ConnectionFails "timed out"))).1
  = Raise (UpdateFailed "Error fetching IPMI state").
Proof.
  split; [reflexivity|].
  apply (first_failure_is_reported sample_url
           (rack3_never_polled (ConnectionFails "timed out"))); reflexivity.
Defined.

(** A device with a product name only. *)
Lemma unbranded_device_raises_KeyError :
  alias unbranded_snapshot = Some "rack3" ∧
  _unique_id_from_status unbranded_snapshot
  = Raise (KeyError "manufacturer_name").
Proof.
  split; [reflexivity|].
  exact (unique_id_needs_both_keys unbranded_snapshot "rack3"
           (list_to_map
              [("product_name", PStr "X1"); ("firmware_revision", PStr "1.0")])
           eq_refl ltac:(discriminate) eq_refl).
Defined.

(** A device whose manufacturer is the number 343. *)
Lemma numbered_device_raises_TypeError :
  getitem (device numbered_snapshot) "manufacturer_name" = Ok (PInt 343) ∧
  _unique_id_from_status numbered_snapshot
  = Raise (TypeError "sequence item: expected str instance").
Proof.
  split; [reflexivity|].
  apply (unique_id_name_not_a_string numbered_snapshot "rack3"
           (PInt 343) (PStr "X1"));
    [reflexivity|discriminate|reflexivity|reflexivity|reflexivity|discriminate].
Defined.

(** An entry without host. *)
Lemma hostless_entry_raises_KeyError :
  CONF_HOST (data entry_without_host) = None ∧
  ∃ key,
    async_setup_entry sample_url "ipmi" ["sensor"; "switch"] 10 list_registry
      list_registry_create ascii_title entry_without_host
      (fresh_hass list_registry (world_answering (JsonBody acme_body)) [])
    = (Raise (KeyError key),
       with_migrated list_registry entry_without_host
         (fresh_hass list_registry (world_answering (JsonBody acme_body)) [])).
Proof.
  split; [reflexivity|].
  apply (setup_missing_host_or_port sample_url "ipmi" ["sensor"; "switch"] 10
           list_registry list_registry_create ascii_title entry_without_host).
  left. reflexivity.
Defined.

(** A setup with the bridge out of reach. *)
Lemma unreachable_bridge_stops_setup :
  let r := async_setup_entry sample_url "ipmi" ["sensor"; "switch"] 10
             list_registry list_registry_create ascii_title entry_with_alias
             (fresh_hass list_registry
                (world_answering (ConnectionFails "timed out")) []) in
  r.1 = Raise (ConfigEntryNotReady "Error fetching IPMI resource status data") ∧
  length (sent (hass_world list_registry r.2)) = 1%nat ∧
  hass_data list_registry r.2 = None ∧
  hass_registry list_registry r.2 = [].
Proof.
  cbv zeta.
  destruct (setup_first_poll_fails sample_url "ipmi" ["sensor"; "switch"] 10
              list_registry list_registry_create ascii_title entry_with_alias
              (fresh_hass list_registry
                 (world_answering (ConnectionFails "timed out")) [])
              "10.0.0.5" 623 eq_refl eq_refl eq_refl)
    as (H1 & H2 & H3 & H4 & _).
  split; [exact H1|]. split; [rewrite H2; reflexivity|].
  split; [exact H3|exact H4].
Defined.

(** The setup of [rack3] against the Acme answer. *)
Lemma acme_setup_registers_rack3 :
  let r := async_setup_entry sample_url "ipmi" ["sensor"; "switch"] 10
             list_registry list_registry_create ascii_title entry_with_alias
             (fresh_hass list_registry (world_answering (JsonBody acme_body)) []) in
  r.1 = Ok true ∧
  hass_registry list_registry r.2 = [("rack3Acme_rack3", ["0123456789abcdef"])] ∧
  hass_forwarded list_registry r.2
    = [("0123456789abcdef", ["sensor"; "switch"])].
Proof.
  cbv zeta.
  destruct (setup_registers_device sample_url "ipmi" ["sensor"; "switch"] 10
              list_registry list_registry_create ascii_title entry_with_alias
              (fresh_hass list_registry (world_answering (JsonBody acme_body)) [])
              "10.0.0.5" "rack3" "Acme_rack3" 623 acme_body (PBool true)
              acme_device (PBool true) (PDict ∅) (PDict ∅)
              (PStr "Acme") (PStr "X1") (PStr "1.0")
              eq_refl eq_refl eq_refl eq_refl eq_refl eq_refl eq_refl eq_refl
              eq_refl eq_refl eq_refl eq_refl eq_refl eq_refl)
    as (H1 & _ & H3 & _ & H5 & _).
  split; [exact H1|]. split; [exact H3|exact H5].
Defined.

(** The same setup when the device reports no firmware revision. *)
Lemma unversioned_device_half_set_up :
  let r := async_setup_entry sample_url "ipmi" ["sensor"; "switch"] 10
             list_registry list_registry_create ascii_title entry_with_alias
             (fresh_hass list_registry
                (world_answering (JsonBody unversioned_body)) []) in
  r.1 = Raise (KeyError "firmware_revision") ∧
  (PYIPMI_UNIQUE_ID <$>
     (hass_data list_registry r.2 ≫= (.!! "0123456789abcdef")))
    = Some "rack3Acme_rack3" ∧
  hass_registry list_registry r.2 = [] ∧
  hass_forwarded list_registry r.2 = [].
Proof.
  cbv zeta.
  destruct (setup_missing_firmware sample_url "ipmi" ["sensor"; "switch"] 10
              list_registry list_registry_create ascii_title entry_with_alias
              (fresh_hass list_registry
                 (world_answering (JsonBody unversioned_body)) [])
              "10.0.0.5" "rack3" "Acme_rack3" 623 unversioned_body (PBool true)
              (PBool true) (PDict ∅) (PDict ∅)
              (list_to_map [ ("manufacturer_name", PStr "Acme");
                             ("product_name", PStr "X1") ])
              eq_refl eq_refl eq_refl eq_refl eq_refl eq_refl eq_refl eq_refl
              eq_refl eq_refl eq_refl eq_refl)
    as (H1 & H2 & _ & H4 & H5).
  split; [exact H1|]. split; [|split; [exact H4|exact H5]].
  cbn [entry_id entry_with_alias] in H2. rewrite H2. reflexivity.
Defined.

(** Setup, then unload. *)
Lemma rack3_unloaded_after_setup :
  let h1 := (async_setup_entry sample_url "ipmi" ["sensor"; "switch"] 10
               list_registry list_registry_create ascii_title entry_with_alias
               (fresh_hass list_registry
                  (world_answering (JsonBody acme_body)) [])).2 in
  (async_unload_entry "ipmi" list_registry true entry_with_alias h1).1
    = Ok true ∧
  hass_data list_registry
    (async_unload_entry "ipmi" list_registry true entry_with_alias h1).2
    = Some (delete "0123456789abcdef" ∅).
Proof.
  cbv zeta.
  destruct (unload_after_setup sample_url "ipmi" ["sensor"; "switch"] 10
              list_registry list_registry_create ascii_title entry_with_alias
              (fresh_hass list_registry (world_answering (JsonBody acme_body)) []))
    as (H1 & H2 & _).
  - vm_compute. reflexivity.
  - split; [exact H1|exact H2].
Defined.

(** A power-cycle action on a host that holds [rack3]. *)
Lemma power_cycle_action_runs_on_rack3 :
  let h := hass_with_rack3 list_registry
             (world_answering (JsonBody rejected_body))
             [("rack3-device", ["0123456789abcdef"])] in
  let r := validated_action sample_url "ipmi" list_registry list_registry_get
             (action_of_type "power_cycle") h in
  r.1 = Ok tt ∧
  sent (hass_world list_registry r.2)
    = [request_of sample_url PowerCycle (PYIPMI_DATA rack3_runtime)].
Proof.
  cbv zeta.
  apply (known_action_dispatched sample_url "ipmi" list_registry
           list_registry_get PowerCycle "power_cycle"
           (action_of_type "power_cycle")
           (hass_with_rack3 list_registry
              (world_answering (JsonBody rejected_body))
              [("rack3-device", ["0123456789abcdef"])])
           "rack3-device" "ipmi" "0123456789abcdef" []
           {[ "0123456789abcdef" := rack3_runtime ]} rack3_runtime);
    reflexivity.
Defined.

(** The actions of the device of [rack3]. *)
Lemma rack3_actions_are_listed :
  ∃ actions,
    async_get_actions "ipmi" list_registry list_registry_get "rack3-device"
      (hass_with_rack3 list_registry (world_answering (JsonBody acme_body))
         [("rack3-device", ["0123456789abcdef"])])
    = (Ok actions,
       hass_with_rack3 list_registry (world_answering (JsonBody acme_body))
         [("rack3-device", ["0123456789abcdef"])]) ∧
    (∀ a, a ∈ actions ↔
          ∃ t, t ∈ USER_AVAILABLE_COMMANDS rack3_runtime ∧
               a = offered_action "ipmi" "rack3-device" t) ∧
    length actions = size (USER_AVAILABLE_COMMANDS rack3_runtime).
Proof.
  apply (get_actions_lists_commands "ipmi" list_registry list_registry_get
           (hass_with_rack3 list_registry (world_answering (JsonBody acme_body))
              [("rack3-device", ["0123456789abcdef"])])
           "rack3-device" "0123456789abcdef" []
           {[ "0123456789abcdef" := rack3_runtime ]} rack3_runtime);
    reflexivity.
Defined.

(** The offered power-off action. *)
Lemma rack3_power_off_action_is_valid :
  offered_action "ipmi" "rack3-device" "power_off"
    ∈ (offered_action "ipmi" "rack3-device"
         <$> elements INTEGRATION_SUPPORTED_COMMANDS) ∧
  ACTION_SCHEMA (offered_action "ipmi" "rack3-device" "power_off")
  = Ok (offered_action "ipmi" "rack3-device" "power_off").
Proof.
  assert (Hin : offered_action "ipmi" "rack3-device" "power_off"
                  ∈ (offered_action "ipmi" "rack3-device"
                       <$> elements INTEGRATION_SUPPORTED_COMMANDS)).
  { apply list_elem_of_fmap. exists "power_off". split; [reflexivity|].
    apply elem_of_elements. unfold INTEGRATION_SUPPORTED_COMMANDS.
    set_solver. }
  split; [exact Hin|].
  exact (offered_actions_are_valid "ipmi" list_registry list_registry_get
           (hass_with_rack3 list_registry (world_answering (JsonBody acme_body))
              [("rack3-device", ["0123456789abcdef"])])
           "rack3-device" "0123456789abcdef" []
           {[ "0123456789abcdef" := rack3_runtime ]} rack3_runtime
           (offered_action "ipmi" "rack3-device"
              <$> elements INTEGRATION_SUPPORTED_COMMANDS)
           (offered_action "ipmi" "rack3-device" "power_off")
           eq_refl eq_refl eq_refl eq_refl eq_refl Hin).
Defined.

(** A host with an empty registry. *)
Lemma unregistered_device_has_no_actions :
  list_registry_get [] "rack3-device" = None ∧
  async_get_actions "ipmi" list_registry list_registry_get "rack3-device"
    (fresh_hass list_registry (world_answering (JsonBody acme_body)) [])
  = (Ok [], fresh_hass list_registry (world_answering (JsonBody acme_body)) []) ∧
  ∃ key,
    async_call_action_from_config sample_url "ipmi" list_registry
      list_registry_get (action_of_type "power_on")
      (fresh_hass list_registry (world_answering (JsonBody acme_body)) [])
    = (Raise (KeyError key),
       fresh_hass list_registry (world_answering (JsonBody acme_body)) []).
Proof.
  split; [reflexivity|].
  apply (unknown_device_has_no_actions sample_url "ipmi" list_registry
           list_registry_get (action_of_type "power_on")
           (fresh_hass list_registry (world_answering (JsonBody acme_body)) [])
           "rack3-device" "power_on"); reflexivity.
Defined.

(** A device left without config entry. *)
Lemma orphan_device_raises_RuntimeError :
  list_registry_get [("rack3-device", [])] "rack3-device" = Some [] ∧
  (async_call_action_from_config sample_url "ipmi" list_registry
     list_registry_get (action_of_type "power_on")
     (hass_with_rack3 list_registry (world_answering (JsonBody acme_body))
        [("rack3-device", [])])).1
  = Raise (RuntimeError "coroutine raised StopIteration").
Proof.
  split; [reflexivity|].
  destruct (device_without_entry_raises sample_url "ipmi" list_registry
              list_registry_get (action_of_type "power_on")
              (hass_with_rack3 list_registry
                 (world_answering (JsonBody acme_body)) [("rack3-device", [])])
              "rack3-device" "power_on" eq_refl eq_refl eq_refl) as [_ H].
  rewrite H. reflexivity.
Defined.
